(** * run_notebooks.py: batch execution of notebook documents

    A shallow embedding of [run_notebooks.py]: the function [execute], which
    runs one notebook through nbconvert's [ExecutePreprocessor] and writes the
    result next to the input, and the [__main__] driver, which globs the
    notebooks one directory below the current one and runs [execute] on each.

    The Python built-ins the script calls ([str.replace], [str.endswith],
    [glob.glob], [os.path.split], [os.path.join], [os.path.abspath]) are
    embedded with their CPython (POSIX) behaviour.  The notebook parser and the
    execution engine are external collaborators: they are section variables,
    and nothing is assumed about them. *)

From Stdlib Require Import ZArith Ascii String.
From stdpp Require Import base option list gmap strings.

Local Open Scope string_scope.
Local Open Scope list_scope.

(** ** Python strings *)

Module PyStr.

(** [s.startswith(p)] *)
Fixpoint startswith (s p : string) : bool :=
  match p, s with
  | EmptyString, _ => true
  | String _ _, EmptyString => false
  | String a p', String b s' => if Ascii.eqb a b then startswith s' p' else false
  end.

(** [s.endswith(suf)]: some tail of [s] is [suf]. *)
Fixpoint endswith (s suf : string) : bool :=
  String.eqb s suf ||
  match s with
  | EmptyString => false
  | String _ s' => endswith s' suf
  end.

(** [sub in s] *)
Fixpoint contains (sub s : string) : bool :=
  startswith s sub ||
  match s with
  | EmptyString => false
  | String _ s' => contains sub s'
  end.

(** [s.replace(old, new)] for a non-empty [old]: scan from the left, replace
    each occurrence found and resume after it.  [skip] counts the characters
    of the occurrence just replaced that are still to be passed over. *)
Fixpoint replace_go (old new : string) (skip : nat) (s : string) : string :=
  match s with
  | EmptyString => EmptyString
  | String c s' =>
      match skip with
      | S k => replace_go old new k s'
      | O =>
          if startswith s old
          then new +:+ replace_go old new (String.length old - 1) s'
          else String c (replace_go old new 0 s')
      end
  end.

(** [s.replace("", new)] puts [new] before every character and at the end. *)
Fixpoint interleave (new s : string) : string :=
  match s with
  | EmptyString => new
  | String c s' => new +:+ String c (interleave new s')
  end.

Definition replace (s old new : string) : string :=
  match old with
  | EmptyString => interleave new s
  | String _ _ => replace_go old new 0 s
  end.

(** [s.split(sep)] for a one-character separator: never the empty list. *)
Fixpoint split (sep : ascii) (s : string) : list string :=
  match s with
  | EmptyString => [EmptyString]
  | String c s' =>
      if Ascii.eqb c sep then EmptyString :: split sep s'
      else match split sep s' with
           | [] => [String c EmptyString]
           | w :: ws => String c w :: ws
           end
  end.

(** [sep.join(l)] *)
Fixpoint join (sep : string) (l : list string) : string :=
  match l with
  | [] => EmptyString
  | [w] => w
  | w :: ws => w +:+ sep +:+ join sep ws
  end.

(** [s.rstrip(c)] for a one-character set. *)
Fixpoint rstrip (c : ascii) (s : string) : string :=
  match s with
  | EmptyString => EmptyString
  | String a s' =>
      match rstrip c s' with
      | EmptyString => if Ascii.eqb a c then EmptyString else String a EmptyString
      | r => String a r
      end
  end.

(** [c * n] *)
Fixpoint repeat (c : ascii) (n : nat) : string :=
  match n with
  | O => EmptyString
  | S k => String c (repeat c k)
  end.

End PyStr.

(** ** [posixpath] *)

Module PosixPath.

Definition sep : ascii := "/"%char.

(** [p[:i], p[i:]] with [i = p.rfind('/') + 1]. *)
Fixpoint cut_last_sep (p : string) : string * string :=
  match p with
  | EmptyString => (EmptyString, EmptyString)
  | String c p' =>
      match cut_last_sep p' with
      | (EmptyString, tail) =>
          if Ascii.eqb c sep then (String c EmptyString, tail)
          else (EmptyString, String c tail)
      | (head, tail) => (String c head, tail)
      end
  end.

(** [os.path.split(p)] *)
Definition split (p : string) : string * string :=
  let '(head, tail) := cut_last_sep p in
  let head :=
    if negb (String.eqb head EmptyString)
       && negb (String.eqb head (PyStr.repeat sep (String.length head)))
    then PyStr.rstrip sep head
    else head in
  (head, tail).

(** [os.path.join(a, b)] *)
Definition join (a b : string) : string :=
  if PyStr.startswith b "/" then b
  else if String.eqb a EmptyString || PyStr.endswith a "/" then a +:+ b
  else a +:+ "/" +:+ b.

(** [os.path.isabs(p)] *)
Definition isabs (p : string) : bool := PyStr.startswith p "/".

(** One turn of the loop of [normpath] over the components of the path. *)
Definition normpath_step (initial_slashes : nat) (new_comps : list string)
    (comp : string) : list string :=
  if String.eqb comp "" || String.eqb comp "." then new_comps
  else if negb (String.eqb comp "..")
          || (Nat.eqb initial_slashes 0 && bool_decide (new_comps = []))
          || (negb (bool_decide (new_comps = []))
              && bool_decide (last new_comps = Some ".."))
  then new_comps ++ [comp]
  else removelast new_comps.

(** [os.path.normpath(path)] *)
Definition normpath (path : string) : string :=
  if String.eqb path "" then "."
  else
    let initial_slashes :=
      if PyStr.startswith path "/" then
        if PyStr.startswith path "//" && negb (PyStr.startswith path "///")
        then 2 else 1
      else 0 in
    let comps := PyStr.split sep path in
    let new_comps := fold_left (normpath_step initial_slashes) comps [] in
    let path := PyStr.join "/" new_comps in
    let path := PyStr.repeat sep initial_slashes +:+ path in
    if String.eqb path "" then "." else path.

(** [os.path.abspath(path)], with [cwd] the value of [os.getcwd()]. *)
Definition abspath (cwd path : string) : string :=
  normpath (if isabs path then path else join cwd path).

End PosixPath.

(** ** [fnmatch] and [glob] *)

Module Glob.

(** [fnmatch.fnmatchcase(name, pat)] for patterns built from literal
    characters, [*] and [?]. *)
Fixpoint fnmatch (pat : string) : string -> bool :=
  match pat with
  | EmptyString => fun name => String.eqb name EmptyString
  | String c pat' =>
      if Ascii.eqb c "*" then
        fix star (name : string) : bool :=
          fnmatch pat' name ||
          match name with
          | EmptyString => false
          | String _ name' => star name'
          end
      else if Ascii.eqb c "?" then
        fun name =>
          match name with
          | EmptyString => false
          | String _ name' => fnmatch pat' name'
          end
      else
        fun name =>
          match name with
          | EmptyString => false
          | String a name' => Ascii.eqb a c && fnmatch pat' name'
          end
  end.

(** [glob._ishidden] *)
Definition ishidden (name : string) : bool := PyStr.startswith name ".".

(** [glob.has_magic], for the wildcards that [fnmatch] above knows. *)
Definition has_magic (s : string) : bool :=
  PyStr.contains "*" s || PyStr.contains "?" s.

Section Listing.
(** [listdir d] is [os.listdir(d)], in the order of the operating system,
    and [None] where the call raises (no such directory, not a
    directory). *)
Variable listdir : string -> option (list string).

(** [glob._glob1(dirname, pattern)]: the entries of [dirname] that match,
    hidden ones left out unless the pattern itself is hidden; an empty
    [dirname] stands for [os.curdir]. *)
Definition glob1 (dirname pattern : string) : list string :=
  match listdir (if String.eqb dirname "" then "." else dirname) with
  | None => []
  | Some names =>
      let names :=
        if ishidden pattern then names
        else List.filter (fun x => negb (ishidden x)) names in
      List.filter (fnmatch pattern) names
  end.

(** [glob.glob(pathname)] for a pattern of one or two components, each
    with a wildcard.  An entry of the first level that is not a
    directory has no listing and contributes nothing. *)
Definition glob (pathname : string) : list string :=
  let '(dirname, basename) := PosixPath.split pathname in
  if String.eqb dirname "" then glob1 "" basename
  else
    let dirs := glob1 "" dirname in
    flat_map
      (fun dirname => map (PosixPath.join dirname) (glob1 dirname basename))
      dirs.
End Listing.

End Glob.

(** ** The interpreter state and the monad of effects *)

(** The exceptions that matter to the script: the engine's
    [CellExecutionError] with its [traceback] attribute, [SystemExit] as
    raised by [sys.exit], and every other exception, kept by name. *)
Inductive exn : Type :=
  | CellExecutionError (traceback : string)
  | SystemExit (code : Z)
  | OtherException (name : string).

Inductive result (A : Type) : Type :=
  | Returned (a : A)
  | Raised (e : exn).
Arguments Returned {A} a.
Arguments Raised {A} e.

(** The file system as the script sees it: regular files by the path they are
    opened with, [os.listdir], and whether [open(path, 'wt')] succeeds (the
    parent directory exists, permissions allow it, the path is no
    directory). *)
Record FileSystem : Type := mkFS {
  files : gmap string string;
  listdir : string -> option (list string);
  writable : string -> bool
}.

Definition set_file (path text : string) (fsys : FileSystem) : FileSystem :=
  {| files := <[path := text]> (files fsys);
     listdir := listdir fsys;
     writable := writable fsys |}.

(** An argument of [print]. *)
Inductive pyval : Type :=
  | VStr (s : string)
  | VList (l : list string).

(** [ExecutePreprocessor(timeout=..., kernel_name=...)] *)
Record ExecutePreprocessor : Type := mkEP {
  timeout : Z;
  ep_kernel_name : string
}.

(** The [resources] dictionary [{'metadata': {'path': ...}}]. *)
Record resources : Type := mkResources { metadata_path : string }.

(** How a run of the engine ends. *)
Inductive engine_outcome : Type :=
  | CellsDone
  | CellFailed (traceback : string)
  | EngineError (name : string).

(** One call of [execute] made by the driver, with how it ended.  The log of
    calls is ghost state: the script has no such list and the model never
    reads it. *)
Record call : Type := mkCall {
  call_nb_in_fn : string;
  call_kernel_name : string;
  call_run_path : string;
  call_result : result bool
}.

Definition loc : Type := nat.

Section Interp.

(** A parsed notebook document (nbformat's [NotebookNode]). *)
Variable notebook : Type.

Record State : Type := mkState {
  fs : FileSystem;
  cwd : string;                 (* os.getcwd() *)
  stdout : list (list pyval);   (* one entry per call of print *)
  heap : list notebook;         (* the notebook objects, by reference *)
  calls : list call
}.

Definition set_fs (f : FileSystem -> FileSystem) (s : State) : State :=
  {| fs := f (fs s); cwd := cwd s; stdout := stdout s; heap := heap s;
     calls := calls s |}.
Definition set_stdout (f : list (list pyval) -> list (list pyval)) (s : State)
    : State :=
  {| fs := fs s; cwd := cwd s; stdout := f (stdout s); heap := heap s;
     calls := calls s |}.
Definition set_heap (f : list notebook -> list notebook) (s : State) : State :=
  {| fs := fs s; cwd := cwd s; stdout := stdout s; heap := f (heap s);
     calls := calls s |}.
Definition set_calls (f : list call -> list call) (s : State) : State :=
  {| fs := fs s; cwd := cwd s; stdout := stdout s; heap := heap s;
     calls := f (calls s) |}.

(** Computations that read and change the state and return or raise. *)
Definition M (A : Type) : Type := State -> State * result A.

Definition ret {A} (a : A) : M A := fun s => (s, Returned a).

Definition raise {A} (e : exn) : M A := fun s => (s, Raised e).

Definition bind {A B} (m : M A) (k : A -> M B) : M B :=
  fun s =>
    match m s with
    | (s1, Returned a) => k a s1
    | (s1, Raised e) => (s1, Raised e)
    end.

(** [try: body / except <those e with handler e = Some h>: h] *)
Definition try_except {A} (body : M A) (handler : exn -> option (M A)) : M A :=
  fun s =>
    match body s with
    | (s1, Returned a) => (s1, Returned a)
    | (s1, Raised e) =>
        match handler e with
        | Some h => h s1
        | None => (s1, Raised e)
        end
    end.

(** [try: body / finally: cleanup]: [cleanup] runs however [body] ends; an
    exception of [cleanup] replaces the pending outcome. *)
Definition try_finally {A} (body : M A) (cleanup : M unit) : M A :=
  fun s =>
    match body s with
    | (s1, r) =>
        match cleanup s1 with
        | (s2, Returned _) => (s2, r)
        | (s2, Raised e) => (s2, Raised e)
        end
    end.

(** [for x in l: acc = body(acc, x)] *)
Fixpoint for_each {A B} (l : list A) (body : B -> A -> M B) (acc : B) : M B :=
  match l with
  | [] => ret acc
  | x :: l' => bind (body acc x) (for_each l' body)
  end.

End Interp.

Arguments mkState {notebook}.
Arguments fs {notebook}.
Arguments cwd {notebook}.
Arguments stdout {notebook}.
Arguments heap {notebook}.
Arguments calls {notebook}.
Arguments set_fs {notebook}.
Arguments set_stdout {notebook}.
Arguments set_heap {notebook}.
Arguments set_calls {notebook}.
Arguments ret {notebook A}.
Arguments raise {notebook A}.
Arguments bind {notebook A B}.
Arguments try_except {notebook A}.
Arguments try_finally {notebook A}.
Arguments for_each {notebook A B}.

Declare Scope py_scope.
Delimit Scope py_scope with py.
Notation "x <- m ;; k" := (bind m (fun x => k))
  (at level 100, m at next level, right associativity) : py_scope.
Notation "m ;;; k" := (bind m (fun _ => k))
  (at level 100, right associativity) : py_scope.

Local Open Scope py_scope.

(** ** The script *)

Module RunNotebooks.

Section Script.

Variable notebook : Type.

(** [nbformat.read(f, as_version=v)] on the text of the file: the parsed
    document, or the name of the exception raised on a malformed one. *)
Variable nbformat_read : string -> Z -> string + notebook.

(** [nbformat.write(nb, f)]: the text written. *)
Variable nbformat_write : notebook -> string.

(** [ep.preprocess(nb, resources)]: the kernel runs the cells, which may do
    anything to the file system; the notebook object is changed in place,
    also when the run ends in an exception. *)
Variable preprocess :
  ExecutePreprocessor -> notebook -> resources -> FileSystem ->
  FileSystem * notebook * engine_outcome.

Abbreviation State := (State notebook).
Abbreviation M := (M notebook).

(** *** Primitive operations *)

Definition print (args : list pyval) : M unit :=
  fun s => (set_stdout (fun out => out ++ [args]) s, Returned tt).

(** [open(path).read()] *)
Definition open_read (path : string) : M string :=
  fun s =>
    match files (fs s) !! path with
    | Some text => (s, Returned text)
    | None => (s, Raised (OtherException "FileNotFoundError"))
    end.

(** [open(path, mode='wt')]: the file is created or truncated. *)
Definition open_wt (path : string) : M unit :=
  fun s =>
    if writable (fs s) path
    then (set_fs (set_file path "") s, Returned tt)
    else (s, Raised (OtherException "OSError")).

(** [f.write(text)] on the file opened at [path]. *)
Definition file_write (path text : string) : M unit :=
  fun s =>
    let old := default "" (files (fs s) !! path) in
    (set_fs (set_file path (old +:+ text)) s, Returned tt).

(** A new object on the heap. *)
Definition alloc (nb : notebook) : M loc :=
  fun s => (set_heap (fun h => h ++ [nb]) s, Returned (length (heap s))).

(** The object behind a reference; a reference made by [alloc] is never
    dangling. *)
Definition deref (l : loc) : M notebook :=
  fun s =>
    match heap s !! l with
    | Some nb => (s, Returned nb)
    | None => (s, Raised (OtherException "ReferenceError"))
    end.

(** [with open(path) as f: nb = nbformat.read(f, as_version=v)] *)
Definition read_notebook (path : string) (as_version : Z) : M loc :=
  text <- open_read path ;;
  match nbformat_read text as_version with
  | inl name => raise (OtherException name)
  | inr nb => alloc nb
  end.

(** [with open(path, mode='wt') as f: nbformat.write(nb, f)] *)
Definition write_notebook (nb : loc) (path : string) : M unit :=
  open_wt path ;;;
  doc <- deref nb ;;
  file_write path (nbformat_write doc).

(** [ep.preprocess(nb, resources)] on the object [nb]. *)
Definition ep_preprocess (ep : ExecutePreprocessor) (nb : loc)
    (res : resources) : M unit :=
  doc <- deref nb ;;
  fun s =>
    let '(fs', doc', outcome) := preprocess ep doc res (fs s) in
    let s' := set_heap (fun h => <[nb := doc']> h) (set_fs (fun _ => fs') s) in
    match outcome with
    | CellsDone => (s', Returned tt)
    | CellFailed tb => (s', Raised (CellExecutionError tb))
    | EngineError name => (s', Raised (OtherException name))
    end.

(** ['Error executing the notebook "{}". Traceback:'.format(nb_in_fn)] *)
Definition error_message (nb_in_fn : string) : string :=
  "Error executing the notebook " +:+ String "034" nb_in_fn
    +:+ String "034" ". Traceback:".

(** *** [execute]

    [nb_out_fn] is the first line of the function.  The local [failed] is the
    value of the [try] statement: [false] when the body completes, [true]
    from the handler. *)
Definition nb_out_fn (nb_in_fn : string) : string :=
  PyStr.replace nb_in_fn ".ipynb" ".nbconvert.ipynb".

Definition execute (nb_in_fn kernel_name run_path : string) : M bool :=
  nb <- read_notebook nb_in_fn 4 ;;
  let ep := {| timeout := 600; ep_kernel_name := kernel_name |} in
  failed <-
    try_finally
      (try_except
         (ep_preprocess ep nb {| metadata_path := run_path |} ;;;
          ret false)
         (fun e =>
            match e with
            | CellExecutionError traceback =>
                Some (print [VStr (error_message nb_in_fn)] ;;;
                      print [VStr traceback] ;;;
                      ret true)
            | _ => None
            end))
      (write_notebook nb (nb_out_fn nb_in_fn)) ;;
  ret (negb failed).

(** *** The [__main__] driver *)

(** [glob(pattern)] in the current state of the file system. *)
Definition glob (pattern : string) : M (list string) :=
  fun s => (s, Returned (Glob.glob (listdir (fs s)) pattern)).

(** [os.path.abspath(path)] *)
Definition abspath (path : string) : M string :=
  fun s => (s, Returned (PosixPath.abspath (cwd s) path)).

(** [sys.exit(code)] *)
Definition sys_exit (code : Z) : M unit := raise (SystemExit code).

(** The call [execute(nbfn, kernel_name, nb_dir)] of the driver, entered in
    the ghost log when it ends. *)
Definition logged_execute (nb_in_fn kernel_name run_path : string) : M bool :=
  fun s =>
    let '(s1, r) := execute nb_in_fn kernel_name run_path s in
    (set_calls
       (fun cs => cs ++ [mkCall nb_in_fn kernel_name run_path r]) s1, r).

(** [os.path.abspath(os.path.join('.', os.path.split(nbfn)[0]))] *)
Definition nb_dir (cwd nbfn : string) : string :=
  PosixPath.abspath cwd (PosixPath.join "." (fst (PosixPath.split nbfn))).

(** The body of the [for] loop; [and] evaluates its right operand only when
    the left one is true. *)
Definition loop_body (kernel_name : string) (succeeded : bool) (nbfn : string)
    : M bool :=
  nb_dir <- abspath (PosixPath.join "." (fst (PosixPath.split nbfn))) ;;
  if succeeded then logged_execute nbfn kernel_name nb_dir
  else ret succeeded.

Definition discover : M (list string) :=
  nbfns <- glob "*/*.ipynb" ;;
  ret (List.filter
         (fun fn => negb (PyStr.endswith fn ".nbconvert.ipynb")) nbfns).

Definition main : M unit :=
  let kernel_name := "python3" in
  nbfns <- discover ;;
  print [VStr "Running the following notebooks:"; VList nbfns] ;;;
  succeeded <- for_each nbfns (loop_body kernel_name) true ;;
  if negb succeeded then sys_exit 1 else sys_exit 0.

(** The exit status of the interpreter for a script that ends as [r]: the
    code of [SystemExit], 1 after an exception nobody caught, 0 when the
    script runs off its end. *)
Definition exit_status (r : result unit) : Z :=
  match r with
  | Returned _ => 0
  | Raised (SystemExit code) => code
  | Raised _ => 1
  end.

(** The calls of [execute] that a run of [main] from [s] makes. *)
Definition calls_made (s : State) : list call :=
  drop (length (calls s)) (calls (fst (main s))).

End Script.

End RunNotebooks.

Import RunNotebooks.

(** ** A small instance to run the script on

    Documents are a source text with the number of cells run so far.  The toy
    engine fails a cell on a division by zero, times out on a [sleep], and
    otherwise runs both cells. *)

Module Demo.

Definition doc : Type := (string * nat)%type.

Definition parse (text : string) (as_version : Z) : string + doc :=
  if String.eqb text "" then inl "JSONDecodeError" else inr (text, 0).

Definition serialize (d : doc) : string :=
  fst d +:+ "#" +:+ PyStr.repeat "!" (snd d).

Definition engine (ep : ExecutePreprocessor) (d : doc) (res : resources)
    (fsys : FileSystem) : FileSystem * doc * engine_outcome :=
  if PyStr.contains "1/0" (fst d)
  then (fsys, (fst d, 1), CellFailed "ZeroDivisionError")
  else if PyStr.contains "sleep" (fst d)
  then (fsys, (fst d, 1), EngineError "TimeoutError")
  else (set_file (metadata_path res +:+ "/side.txt") (ep_kernel_name ep) fsys,
        (fst d, 2), CellsDone).

Definition tree (d : string) : option (list string) :=
  if String.eqb d "." then Some ["a"; ".git"; "b"; "README.md"]
  else if String.eqb d "a" then Some ["bad.ipynb"; "old.nbconvert.ipynb"]
  else if String.eqb d "b" then Some ["good.ipynb"; "notes.txt"]
  else if String.eqb d ".git" then Some ["x.ipynb"]
  else None.

Definition disk : FileSystem :=
  {| files :=
       <["a/bad.ipynb" := "print(1/0)"]>
         (<["b/good.ipynb" := "print(1)"]>
            (<["a/old.nbconvert.ipynb" := "stale"]>
               (<["plain" := "print(2)"]>
                  (<["c/slow.ipynb" := "sleep(9)"]>
                     (<["c/then.ipynb" := "print(3)"]>
                        (<["empty.ipynb" := ""]>
                           (<["ro/locked.ipynb" := "print(4)"]> ∅)))))));
     listdir := tree;
     writable := fun p => negb (PyStr.startswith p "ro/") |}.

Definition start : State doc :=
  {| fs := disk; cwd := "/home/u/nbs"; stdout := []; heap := []; calls := [] |}.

(** The same files seen from a directory whose only subdirectory is [c]. *)
Definition tree_slow (d : string) : option (list string) :=
  if String.eqb d "." then Some ["c"]
  else if String.eqb d "c" then Some ["slow.ipynb"; "then.ipynb"]
  else None.

Definition start_slow : State doc :=
  {| fs := {| files := files disk; listdir := tree_slow;
              writable := writable disk |};
     cwd := "/home/u/nbs"; stdout := []; heap := []; calls := [] |}.

(** A directory whose name ends in [.ipynb]. *)
Definition tree_dotted (d : string) : option (list string) :=
  if String.eqb d "." then Some ["x.ipynb"]
  else if String.eqb d "x.ipynb" then Some ["n.ipynb"]
  else None.

Definition execute := execute doc parse serialize engine.
Definition main := main doc parse serialize engine.
Definition discover := discover doc.
Definition calls_made := calls_made doc parse serialize engine.

(** The same files seen from a directory whose only subdirectory is [b]. *)
Definition tree_ok (d : string) : option (list string) :=
  if String.eqb d "." then Some ["b"]
  else if String.eqb d "b" then Some ["good.ipynb"; "notes.txt"]
  else None.

Definition start_ok : State doc :=
  {| fs := {| files := files disk; listdir := tree_ok;
              writable := writable disk |};
     cwd := "/home/u/nbs"; stdout := []; heap := []; calls := [] |}.

(** A current directory that cannot be listed. *)
Definition start_bare : State doc :=
  {| fs := {| files := files disk; listdir := fun _ => None;
              writable := writable disk |};
     cwd := "/home/u/nbs"; stdout := []; heap := []; calls := [] |}.

(** An engine and a parser that differ from [engine] and [parse] only where
    the script never asks: another timeout, another format version. *)
Definition engine' (ep : ExecutePreprocessor) (d : doc) (res : resources)
    (fsys : FileSystem) : FileSystem * doc * engine_outcome :=
  if Z.eqb (timeout ep) 600 then engine ep d res fsys
  else (fsys, d, EngineError "TimeoutError").

Definition parse' (text : string) (as_version : Z) : string + doc :=
  if Z.eqb as_version 4 then parse text as_version else inl "ValidationError".

End Demo.

(** ** Notions used in the statements *)

(** A call that returned [True]. *)
Definition call_ok (c : call) : Prop := call_result c = Returned true.

(** The runs of the driver's loop entered with [succeeded = True], read off
    the ghost log: the calls made on a list of notebooks and how the loop
    ends.  A call that returns [True] is followed by the rest of the list; a
    call that returns [False] or raises is the last one. *)
Inductive driver_trace (kernel_name cwd : string)
    : list string -> list call -> result bool -> Prop :=
  | trace_nil :
      driver_trace kernel_name cwd [] [] (Returned true)
  | trace_true nbfn l cs r :
      driver_trace kernel_name cwd l cs r ->
      driver_trace kernel_name cwd (nbfn :: l)
        (mkCall nbfn kernel_name (nb_dir cwd nbfn) (Returned true) :: cs) r
  | trace_false nbfn l :
      driver_trace kernel_name cwd (nbfn :: l)
        [mkCall nbfn kernel_name (nb_dir cwd nbfn) (Returned false)]
        (Returned false)
  | trace_raise nbfn l name :
      driver_trace kernel_name cwd (nbfn :: l)
        [mkCall nbfn kernel_name (nb_dir cwd nbfn)
           (Raised (OtherException name))]
        (Raised (OtherException name)).

(** A name that [os.listdir] can return: not empty, without a slash. *)
Definition entry_name (n : string) : bool :=
  negb (String.eqb n "") && negb (PyStr.contains "/" n).

(** A component of a normalised path. *)
Definition proper_comp (n : string) : bool :=
  entry_name n && negb (String.eqb n ".") && negb (String.eqb n "..").

(** What a failed cell makes [execute] print. *)
Definition printed (nb_in_fn : string) (o : engine_outcome) : list (list pyval) :=
  match o with
  | CellFailed tb => [[VStr (error_message nb_in_fn)]; [VStr tb]]
  | _ => []
  end.

(** How [execute] ends when the output file could be written. *)
Definition outcome_result (o : engine_outcome) : result bool :=
  match o with
  | CellsDone => Returned true
  | CellFailed _ => Returned false
  | EngineError name => Raised (OtherException name)
  end.

(** How the script ends, from how the loop ends. *)
Definition script_result (r : result bool) : result unit :=
  match r with
  | Returned true => Raised (SystemExit 0)
  | Returned false => Raised (SystemExit 1)
  | Raised e => Raised e
  end.

(** The line that [main] prints before it runs the notebooks. *)
Definition header (nbfns : list string) : list pyval :=
  [VStr "Running the following notebooks:"; VList nbfns].

(** The two lines that [execute] prints for a failed cell. *)
Definition error_block (nb_in_fn traceback : string) : list (list pyval) :=
  [[VStr (error_message nb_in_fn)]; [VStr traceback]].

(** The argument of [os.listdir] for a directory name of [glob]. *)
Definition listdir_arg (dirname : string) : string :=
  if String.eqb dirname "" then "." else dirname.

Section StateNotions.

Context {notebook : Type}.

(** The state when the [try] statement is left: the engine has changed the
    file system and the notebook object, the handler has printed. *)
Definition after_try (s : State notebook) (nb_in_fn : string)
    (fs' : FileSystem) (doc' : notebook) (o : engine_outcome) : State notebook :=
  {| fs := fs'; cwd := cwd s; stdout := stdout s ++ printed nb_in_fn o;
     heap := heap s ++ [doc']; calls := calls s |}.

(** The notebooks that [main] finds in state [s]. *)
Definition discovered (s : State notebook) : list string :=
  List.filter (fun fn => negb (PyStr.endswith fn ".nbconvert.ipynb"))
    (Glob.glob (listdir (fs s)) "*/*.ipynb").

End StateNotions.

(** Case analysis on the comparisons of characters in the goal. *)
Ltac case_eqb :=
  repeat match goal with
         | |- context [Ascii.eqb ?a ?b] =>
             destruct (Ascii.eqb_spec a b); subst; try done
         end.

(** ** The embedding on concrete inputs *)

Example replace_ex1 :
  PyStr.replace "dir/nb.ipynb" ".ipynb" ".nbconvert.ipynb" = "dir/nb.nbconvert.ipynb".
Proof. reflexivity. Qed.

Example replace_ex2 : PyStr.replace "abc" "" "-" = "-a-b-c-".
Proof. reflexivity. Qed.

Example replace_ex3 : PyStr.replace "aaaa" "aa" "b" = "bb".
Proof. reflexivity. Qed.

Example replace_ex4 : PyStr.replace "aaa" "aa" "ba" = "baa".
Proof. reflexivity. Qed.

Example split_ex1 : PyStr.split "/" "/a//b/" = [""; "a"; ""; "b"; ""].
Proof. reflexivity. Qed.

Example endswith_ex1 : PyStr.endswith "a/b.nbconvert.ipynb" ".nbconvert.ipynb" = true.
Proof. reflexivity. Qed.

Example rstrip_ex1 : PyStr.rstrip "/" "a/b//" = "a/b".
Proof. reflexivity. Qed.

Example split_path_ex1 : PosixPath.split "demo/nb.ipynb" = ("demo", "nb.ipynb").
Proof. reflexivity. Qed.

Example split_path_ex2 : PosixPath.split "//x" = ("//", "x").
Proof. reflexivity. Qed.

Example split_path_ex3 : PosixPath.split "a//b" = ("a", "b").
Proof. reflexivity. Qed.

Example split_path_ex4 : PosixPath.split "nb.ipynb" = ("", "nb.ipynb").
Proof. reflexivity. Qed.

Example normpath_ex1 : PosixPath.normpath "/home/u/./demo/../x//y/" = "/home/u/x/y".
Proof. reflexivity. Qed.

Example normpath_ex2 : PosixPath.normpath "../../a/.." = "../..".
Proof. reflexivity. Qed.

Example normpath_ex3 : PosixPath.normpath "//a/../.." = "//".
Proof. reflexivity. Qed.

Example abspath_ex1 :
  PosixPath.abspath "/home/u" (PosixPath.join "." "demo") = "/home/u/demo".
Proof. reflexivity. Qed.

Example fnmatch_ex1 : Glob.fnmatch "*.ipynb" "intro.ipynb" = true.
Proof. reflexivity. Qed.

Example fnmatch_ex2 : Glob.fnmatch "*.ipynb" "intro.ipynb.bak" = false.
Proof. reflexivity. Qed.

Example fnmatch_ex3 : Glob.fnmatch "a?c*" "abcde" = true.
Proof. reflexivity. Qed.

Example glob_ex1 :
  Glob.glob
    (fun d =>
       if String.eqb d "." then Some ["b"; ".git"; "a"; "README.md"]
       else if String.eqb d "a" then Some ["x.ipynb"; "x.nbconvert.ipynb"; ".h.ipynb"]
       else if String.eqb d "b" then Some ["notes.txt"; "y.ipynb"]
       else if String.eqb d ".git" then Some ["z.ipynb"]
       else None)
    "*/*.ipynb"
  = ["b/y.ipynb"; "a/x.ipynb"; "a/x.nbconvert.ipynb"].
Proof. reflexivity. Qed.

Example demo_discover :
  snd (Demo.discover Demo.start) = Returned ["a/bad.ipynb"; "b/good.ipynb"].
Proof. reflexivity. Qed.

Example demo_execute_good :
  let '(s, r) := Demo.execute "b/good.ipynb" "python3" "/home/u/nbs/b" Demo.start in
  r = Returned true
  /\ files (fs s) !! "b/good.nbconvert.ipynb" = Some "print(1)#!!"
  /\ stdout s = [].
Proof. vm_compute. auto. Qed.

Example demo_execute_bad :
  let '(s, r) := Demo.execute "a/bad.ipynb" "python3" "/home/u/nbs/a" Demo.start in
  r = Returned false
  /\ files (fs s) !! "a/bad.nbconvert.ipynb" = Some "print(1/0)#!"
  /\ length (stdout s) = 2.
Proof. vm_compute. auto. Qed.

Example demo_main_status :
  exit_status (snd (Demo.main Demo.start)) = 1%Z.
Proof. vm_compute. reflexivity. Qed.

Example demo_main_calls :
  map call_nb_in_fn (calls (fst (Demo.main Demo.start))) = ["a/bad.ipynb"].
Proof. vm_compute. reflexivity. Qed.

Example demo_main_stdout :
  stdout (fst (Demo.main Demo.start))
  = [[VStr "Running the following notebooks:";
      VList ["a/bad.ipynb"; "b/good.ipynb"]];
     [VStr (error_message "a/bad.ipynb")];
     [VStr "ZeroDivisionError"]].
Proof. vm_compute. reflexivity. Qed.

Example demo_execute_malformed :
  Demo.execute "empty.ipynb" "python3" "." Demo.start
  = (Demo.start, Raised (OtherException "JSONDecodeError")).
Proof. reflexivity. Qed.

Example demo_execute_locked :
  let '(s, r) := Demo.execute "ro/locked.ipynb" "python3" "/home/u/nbs/ro"
                   Demo.start in
  r = Raised (OtherException "OSError")
  /\ files (fs s) !! "ro/locked.nbconvert.ipynb" = None
  /\ heap s = [("print(4)", 2)].
Proof. vm_compute. auto. Qed.

Example demo_main_slow :
  snd (Demo.main Demo.start_slow) = Raised (OtherException "TimeoutError")
  /\ map call_nb_in_fn (Demo.calls_made Demo.start_slow) = ["c/slow.ipynb"]
  /\ files (fs (fst (Demo.main Demo.start_slow))) !! "c/slow.nbconvert.ipynb"
     = Some "sleep(9)#!".
Proof. vm_compute. auto. Qed.

(** ** Facts about the string functions *)

Section StringFacts.

Local Arguments String.append : simpl nomatch.
Local Arguments Ascii.eqb : simpl never.

Lemma str_app_nil_r (s : string) : s +:+ "" = s.
Proof. induction s as [|c s IH]; simpl; congruence. Qed.

Lemma str_app_assoc (s t u : string) : (s +:+ t) +:+ u = s +:+ (t +:+ u).
Proof. induction s as [|c s IH]; simpl; congruence. Qed.

Lemma str_app_eq_nil (s t : string) : s +:+ t = "" -> s = "" /\ t = "".
Proof. destruct s; simpl; [auto | discriminate]. Qed.

Lemma startswith_nil (s : string) : PyStr.startswith s "" = true.
Proof. by destruct s. Qed.

Lemma startswith_cons (a b : ascii) (p s : string) :
  PyStr.startswith (String b s) (String a p) = Ascii.eqb a b && PyStr.startswith s p.
Proof. simpl. by destruct (Ascii.eqb a b). Qed.

Lemma startswith_app (p s : string) : PyStr.startswith (p +:+ s) p = true.
Proof.
  induction p as [|c p IH]; simpl; [apply startswith_nil|].
  by rewrite Ascii.eqb_refl.
Qed.

Lemma eqb_cons (a b : ascii) (s t : string) :
  String.eqb (String a s) (String b t) = Ascii.eqb a b && String.eqb s t.
Proof. simpl. by destruct (Ascii.eqb a b). Qed.

(** [endswith] is what its name says. *)
Lemma endswith_spec (s suf : string) :
  PyStr.endswith s suf = true <-> exists p, s = p +:+ suf.
Proof.
  induction s as [|c s IH]; cbn [PyStr.endswith].
  - rewrite orb_false_r, String.eqb_eq. split.
    + intros <-. by exists "".
    + intros [p Hp]. symmetry in Hp. by apply str_app_eq_nil in Hp as [_ ->].
  - rewrite orb_true_iff, String.eqb_eq, IH. split.
    + intros [<- | [p ->]]; [by exists "" | by exists (String c p)].
    + intros [[|a p] Hp]; simpl in Hp; [by left | right].
      injection Hp as -> ->. by exists p.
Qed.

Lemma contains_cons (sub : string) (c : ascii) (s : string) :
  PyStr.contains sub (String c s) = false ->
  PyStr.startswith (String c s) sub = false /\ PyStr.contains sub s = false.
Proof. simpl. intros H. by apply orb_false_iff in H. Qed.

(** A character that is in [s]. *)
Lemma contains_char_cons (a c : ascii) (s : string) :
  PyStr.contains (String a "") (String c s)
  = Ascii.eqb a c || PyStr.contains (String a "") s.
Proof.
  change (PyStr.contains (String a "") (String c s))
    with (PyStr.startswith (String c s) (String a "")
          || PyStr.contains (String a "") s).
  by rewrite startswith_cons, startswith_nil, andb_true_r.
Qed.

Lemma contains_char_app (a : ascii) (s t : string) :
  PyStr.contains (String a "") (s +:+ t)
  = PyStr.contains (String a "") s || PyStr.contains (String a "") t.
Proof.
  induction s as [|c s IH].
  - simpl. by destruct (PyStr.contains _ t).
  - change (String c s +:+ t) with (String c (s +:+ t)).
    by rewrite !contains_char_cons, IH, orb_assoc.
Qed.

(** Without an occurrence of [old], [replace] gives the string back. *)
Lemma replace_go_absent (old new s : string) :
  PyStr.contains old s = false -> PyStr.replace_go old new 0 s = s.
Proof.
  induction s as [|c s IH]; [done|].
  intros [Hhd Htl]%contains_cons.
  cbn [PyStr.replace_go]. rewrite Hhd. f_equal. auto.
Qed.

Lemma replace_absent (s old new : string) :
  old <> "" -> PyStr.contains old s = false -> PyStr.replace s old new = s.
Proof.
  intros Hne Habs. unfold PyStr.replace.
  destruct old; [done | by apply replace_go_absent].
Qed.

End StringFacts.

Section Suffix.

Local Arguments String.append : simpl nomatch.
Local Arguments Ascii.eqb : simpl never.

(** [".ipynb"] cannot straddle the end of a stem that is free of it: the dot
    is its first character only. *)
Lemma ipynb_no_straddle (c : ascii) (t : string) :
  PyStr.contains ".ipynb" (String c t) = false ->
  PyStr.startswith (String c t +:+ ".ipynb") ".ipynb" = false.
Proof.
  intros [H _]%contains_cons. revert H.
  destruct t as [|c1 [|c2 [|c3 [|c4 [|c5 t]]]]]; simpl; case_eqb.
  by rewrite !startswith_nil.
Qed.

(** X12.  Where [".ipynb"] occurs once, at the end, [execute] names the
    output as the specification says: the stem followed by
    [.nbconvert.ipynb]. *)
Lemma replace_single_suffix (stem : string) :
  PyStr.contains ".ipynb" stem = false ->
  PyStr.replace (stem +:+ ".ipynb") ".ipynb" ".nbconvert.ipynb"
  = stem +:+ ".nbconvert.ipynb".
Proof.
  unfold PyStr.replace. induction stem as [|c t IH]; [done|].
  intros H. pose proof (ipynb_no_straddle _ _ H) as Hs.
  apply contains_cons in H as [_ H].
  change (String c t +:+ ".ipynb") with (String c (t +:+ ".ipynb")) in *.
  cbn [PyStr.replace_go]. rewrite Hs. simpl. f_equal. auto.
Qed.

End Suffix.

(** ** How [execute] ends *)

Section ExecuteFacts.

Variable notebook : Type.
Variable nbformat_read : string -> Z -> string + notebook.
Variable nbformat_write : notebook -> string.
Variable preprocess :
  ExecutePreprocessor -> notebook -> resources -> FileSystem ->
  FileSystem * notebook * engine_outcome.

Abbreviation State := (State notebook).
Abbreviation execute := (execute notebook nbformat_read nbformat_write preprocess).

Lemma execute_missing (nb_in_fn k rp : string) (s : State) :
  files (fs s) !! nb_in_fn = None ->
  execute nb_in_fn k rp s = (s, Raised (OtherException "FileNotFoundError")).
Proof.
  intros Hf. unfold RunNotebooks.execute, read_notebook, bind, open_read.
  by rewrite Hf.
Qed.

Lemma execute_malformed (nb_in_fn k rp : string) (s : State) text name :
  files (fs s) !! nb_in_fn = Some text ->
  nbformat_read text 4 = inl name ->
  execute nb_in_fn k rp s = (s, Raised (OtherException name)).
Proof.
  intros Hf Hp. unfold RunNotebooks.execute, read_notebook, bind, open_read.
  by rewrite Hf, Hp.
Qed.

Lemma execute_loaded (nb_in_fn k rp : string) (s : State) text doc fs' doc' o :
  files (fs s) !! nb_in_fn = Some text ->
  nbformat_read text 4 = inr doc ->
  preprocess (mkEP 600 k) doc (mkResources rp) (fs s) = (fs', doc', o) ->
  execute nb_in_fn k rp s =
    if writable fs' (nb_out_fn nb_in_fn)
    then (set_fs (set_file (nb_out_fn nb_in_fn) (nbformat_write doc'))
            (after_try s nb_in_fn fs' doc' o),
          outcome_result o)
    else (after_try s nb_in_fn fs' doc' o, Raised (OtherException "OSError")).
Proof.
  intros Hf Hp He.
  destruct s as [fs0 cwd0 out0 heap0 calls0]. cbn [fs] in Hf, He.
  unfold RunNotebooks.execute, read_notebook, try_finally, try_except,
    write_notebook, ep_preprocess, bind, open_read, alloc, deref, open_wt,
    file_write, print, ret, raise, after_try, set_fs, set_heap, set_stdout.
  cbn [fs cwd stdout heap calls]. rewrite Hf, Hp.
  cbn [fs cwd stdout heap calls].
  rewrite list_lookup_middle by done.
  cbn [fs cwd stdout heap calls]. rewrite He.
  cbn [fs cwd stdout heap calls].
  rewrite insert_app_r_alt by done. rewrite Nat.sub_diag. cbn [insert list_insert].
  destruct o as [|tb|name];
    cbn [fs cwd stdout heap calls printed outcome_result negb];
    (destruct (writable fs' (nb_out_fn nb_in_fn)) eqn:Hw;
     cbn [fs cwd stdout heap calls files set_file];
     [ rewrite list_lookup_middle by done;
       unfold set_file; cbn [fs cwd stdout heap calls files listdir writable];
       rewrite lookup_insert_eq, insert_insert_eq;
       change (default "" (Some "") +:+ nbformat_write doc')
         with (nbformat_write doc')
     | ]);
    rewrite ?app_nil_r, <- ?(assoc_L (++)); done.
Qed.

(** [execute] neither moves the interpreter nor touches the log. *)
Lemma execute_frame (nb_in_fn k rp : string) (s : State) :
  cwd (fst (execute nb_in_fn k rp s)) = cwd s
  /\ calls (fst (execute nb_in_fn k rp s)) = calls s.
Proof.
  destruct (files (fs s) !! nb_in_fn) as [text|] eqn:Hf;
    [|by rewrite execute_missing].
  destruct (nbformat_read text 4) as [name|doc] eqn:Hp;
    [by erewrite execute_malformed|].
  destruct (preprocess (mkEP 600 k) doc (mkResources rp) (fs s))
    as [[fs' doc'] o] eqn:He.
  erewrite execute_loaded by done.
  by destruct (writable fs' _).
Qed.

(** No [CellExecutionError] and no [SystemExit] leaves [execute]. *)
Lemma execute_result (nb_in_fn k rp : string) (s : State) :
  (exists b, snd (execute nb_in_fn k rp s) = Returned b)
  \/ (exists name, snd (execute nb_in_fn k rp s) = Raised (OtherException name)).
Proof.
  destruct (files (fs s) !! nb_in_fn) as [text|] eqn:Hf;
    [|rewrite execute_missing by done; eauto].
  destruct (nbformat_read text 4) as [name|doc] eqn:Hp;
    [erewrite execute_malformed by done; eauto|].
  destruct (preprocess (mkEP 600 k) doc (mkResources rp) (fs s))
    as [[fs' doc'] o] eqn:He.
  erewrite execute_loaded by done.
  destruct (writable fs' _); [|eauto].
  destruct o; simpl; eauto.
Qed.

End ExecuteFacts.

(** ** Runs of the driver *)

Section TraceFacts.

Context {kernel_name cwd : string}.

Lemma trace_true_iff l cs r :
  driver_trace kernel_name cwd l cs r ->
  r = Returned true <-> Forall call_ok cs.
Proof.
  induction 1 as [|nbfn l cs r _ IH|nbfn l|nbfn l name].
  - split; [constructor | done].
  - rewrite IH. split.
    + intros Hcs. by constructor.
    + by inversion 1.
  - split; [done|]. inversion 1 as [|c cs' Hc]. discriminate Hc.
  - split; [done|]. inversion 1 as [|c cs' Hc]. discriminate Hc.
Qed.

Lemma trace_result l cs r :
  driver_trace kernel_name cwd l cs r ->
  (exists b, r = Returned b) \/ (exists name, r = Raised (OtherException name)).
Proof. induction 1; eauto. Qed.

Lemma trace_some_false l cs r :
  driver_trace kernel_name cwd l cs r ->
  Exists (fun c => call_result c = Returned false) cs ->
  r = Returned false.
Proof.
  induction 1 as [|nbfn l cs r _ IH|nbfn l|nbfn l name]; intros Hex.
  - inversion Hex.
  - inversion Hex as [c cs' Hc|c cs' Hcs]; subst; [discriminate Hc | auto].
  - done.
  - inversion Hex as [c cs' Hc|c cs' Hcs]; subst;
      [discriminate Hc | inversion Hcs].
Qed.

Lemma trace_raised l cs r c e :
  driver_trace kernel_name cwd l cs r ->
  c ∈ cs -> call_result c = Raised e ->
  r = Raised e /\ exists name, e = OtherException name.
Proof.
  induction 1 as [|nbfn l cs r _ IH|nbfn l|nbfn l name]; intros Hin Hc.
  - by apply elem_of_nil in Hin.
  - apply elem_of_cons in Hin as [-> | Hin]; [discriminate Hc | auto].
  - apply list_elem_of_singleton in Hin as ->. discriminate Hc.
  - apply list_elem_of_singleton in Hin as ->. injection Hc as <-. eauto.
Qed.

Lemma trace_args l cs r c :
  driver_trace kernel_name cwd l cs r ->
  c ∈ cs ->
  call_nb_in_fn c ∈ l
  /\ call_kernel_name c = kernel_name
  /\ call_run_path c = nb_dir cwd (call_nb_in_fn c).
Proof.
  induction 1 as [|nbfn l cs r _ IH|nbfn l|nbfn l name]; intros Hin.
  - by apply elem_of_nil in Hin.
  - apply elem_of_cons in Hin as [-> | Hin].
    + repeat split. simpl. apply list_elem_of_here.
    + destruct (IH Hin) as (? & ? & ?). repeat split; [|done..].
      by apply list_elem_of_further.
  - apply list_elem_of_singleton in Hin as ->. repeat split.
    simpl. apply list_elem_of_here.
  - apply list_elem_of_singleton in Hin as ->. repeat split.
    simpl. apply list_elem_of_here.
Qed.

(** The calls are made in the order of the list, on an initial part of it. *)
Lemma trace_prefix l cs r :
  driver_trace kernel_name cwd l cs r ->
  map call_nb_in_fn cs `prefix_of` l.
Proof.
  induction 1 as [|nbfn l cs r _ IH|nbfn l|nbfn l name]; simpl.
  - done.
  - by apply prefix_cons.
  - apply prefix_cons, prefix_nil.
  - apply prefix_cons, prefix_nil.
Qed.

(** Every document is reached exactly when the loop does not end in
    [False] or an exception before. *)
Lemma trace_complete l cs r :
  driver_trace kernel_name cwd l cs r ->
  r = Returned true -> map call_nb_in_fn cs = l.
Proof.
  induction 1 as [|nbfn l cs r _ IH|nbfn l|nbfn l name]; intros Hr;
    simpl; [done | f_equal; auto | done..].
Qed.

End TraceFacts.

Section DriverFacts.

Variable notebook : Type.
Variable nbformat_read : string -> Z -> string + notebook.
Variable nbformat_write : notebook -> string.
Variable preprocess :
  ExecutePreprocessor -> notebook -> resources -> FileSystem ->
  FileSystem * notebook * engine_outcome.

Abbreviation State := (State notebook).
Abbreviation execute := (execute notebook nbformat_read nbformat_write preprocess).
Abbreviation loop_body :=
  (loop_body notebook nbformat_read nbformat_write preprocess).
Abbreviation main := (main notebook nbformat_read nbformat_write preprocess).
Abbreviation calls_made :=
  (calls_made notebook nbformat_read nbformat_write preprocess).

Lemma for_each_cons {A B} (x : A) (l : list A) (body : B -> A -> M notebook B)
    (acc : B) (s : State) :
  for_each (x :: l) body acc s =
    match body acc x s with
    | (s1, Returned a) => for_each l body a s1
    | (s1, Raised e) => (s1, Raised e)
    end.
Proof. done. Qed.

Lemma loop_body_true (k nbfn : string) (s : State) :
  loop_body k true nbfn s =
    (set_calls
       (fun cs =>
          cs ++ [mkCall nbfn k (nb_dir (cwd s) nbfn)
                   (snd (execute nbfn k (nb_dir (cwd s) nbfn) s))])
       (fst (execute nbfn k (nb_dir (cwd s) nbfn) s)),
     snd (execute nbfn k (nb_dir (cwd s) nbfn) s)).
Proof.
  unfold RunNotebooks.loop_body, bind, abspath, logged_execute, nb_dir.
  by destruct (execute _ _ _ s).
Qed.

Lemma loop_body_false (k nbfn : string) (s : State) :
  loop_body k false nbfn s = (s, Returned false).
Proof. done. Qed.

(** Once [succeeded] is [False] the loop calls nothing any more. *)
Lemma for_each_false (k : string) (l : list string) (s : State) :
  for_each l (loop_body k) false s = (s, Returned false).
Proof.
  induction l as [|nbfn l IH]; [done|].
  by rewrite for_each_cons, loop_body_false.
Qed.

Lemma for_each_trace (k : string) (l : list string) (s : State) :
  exists cs,
    calls (fst (for_each l (loop_body k) true s)) = calls s ++ cs
    /\ cwd (fst (for_each l (loop_body k) true s)) = cwd s
    /\ driver_trace k (cwd s) l cs (snd (for_each l (loop_body k) true s)).
Proof.
  revert s. induction l as [|nbfn l IH]; intros s.
  - exists []. cbn. rewrite app_nil_r. repeat split. constructor.
  - rewrite for_each_cons, loop_body_true.
    pose proof (execute_frame _ nbformat_read nbformat_write preprocess
                  nbfn k (nb_dir (cwd s) nbfn) s) as [Hcwd Hcalls].
    pose proof (execute_result _ nbformat_read nbformat_write preprocess
                  nbfn k (nb_dir (cwd s) nbfn) s) as Hres.
    destruct (execute nbfn k (nb_dir (cwd s) nbfn) s) as [s1 r].
    cbn [fst snd] in *.
    destruct Hres as [[[|] ->] | [name ->]].
    + set (s2 := set_calls _ s1).
      destruct (IH s2) as (cs & Hcs & Hc & Htr).
      exists (mkCall nbfn k (nb_dir (cwd s) nbfn) (Returned true) :: cs).
      subst s2. cbn [calls cwd set_calls] in Hcs, Hc, Htr.
      rewrite Hcwd in Hc, Htr. rewrite Hcalls in Hcs.
      rewrite Hcs, Hc, <- (assoc_L (++)). repeat split. by constructor.
    + rewrite for_each_false. cbn [fst snd calls cwd set_calls stdout].
      exists [mkCall nbfn k (nb_dir (cwd s) nbfn) (Returned false)].
      rewrite Hcalls, Hcwd. repeat split. constructor.
    + cbn [fst snd calls cwd set_calls stdout].
      exists [mkCall nbfn k (nb_dir (cwd s) nbfn) (Raised (OtherException name))].
      rewrite Hcalls, Hcwd. repeat split. constructor.
Qed.

Lemma discover_eq (s : State) :
  discover notebook s = (s, Returned (discovered s)).
Proof. done. Qed.

(** [main], with the binds unfolded. *)
Lemma main_eq (s : State) :
  main s =
    let s1 :=
      set_stdout
        (fun out =>
           out ++ [[VStr "Running the following notebooks:";
                    VList (discovered s)]]) s in
    (fst (for_each (discovered s) (loop_body "python3") true s1),
     script_result (snd (for_each (discovered s) (loop_body "python3") true s1))).
Proof.
  unfold RunNotebooks.main. unfold bind at 1. rewrite discover_eq.
  unfold bind, print. cbv zeta.
  destruct (for_each _ _ _ _) as [s2 [[|]|e]]; done.
Qed.

Lemma main_trace (s : State) :
  exists r,
    driver_trace "python3" (cwd s) (discovered s) (calls_made s) r
    /\ snd (main s) = script_result r.
Proof.
  unfold RunNotebooks.calls_made. rewrite main_eq. cbv zeta. cbn [fst snd].
  set (s1 := set_stdout _ s).
  destruct (for_each_trace "python3" (discovered s) s1)
    as (cs & Hcs & Hc & Htr).
  exists (snd (for_each (discovered s) (loop_body "python3") true s1)).
  split; [|done].
  rewrite Hcs. subst s1. cbn [calls cwd set_stdout] in *.
  by rewrite drop_app_length.
Qed.

End DriverFacts.

(** ** [fnmatch] and [glob] *)

Section GlobFacts.

Local Arguments String.append : simpl nomatch.
Local Arguments Ascii.eqb : simpl never.

Lemma fnmatch_star_cons (pat : string) (c : ascii) (name : string) :
  Glob.fnmatch (String "*" pat) (String c name)
  = Glob.fnmatch pat (String c name) || Glob.fnmatch (String "*" pat) name.
Proof. done. Qed.

Lemma fnmatch_star_nil (pat : string) :
  Glob.fnmatch (String "*" pat) "" = Glob.fnmatch pat "".
Proof. simpl. apply orb_false_r. Qed.

(** [*] matches every name. *)
Lemma fnmatch_star (name : string) : Glob.fnmatch "*" name = true.
Proof.
  induction name as [|c name IH]; [done|].
  by rewrite fnmatch_star_cons, IH, orb_true_r.
Qed.

Lemma has_magic_cons (c : ascii) (pat : string) :
  Glob.has_magic (String c pat) = false ->
  Ascii.eqb c "*" = false /\ Ascii.eqb c "?" = false
  /\ Glob.has_magic pat = false.
Proof.
  unfold Glob.has_magic. rewrite !contains_char_cons.
  rewrite (Ascii.eqb_sym "*"), (Ascii.eqb_sym "?").
  destruct (Ascii.eqb c "*"), (Ascii.eqb c "?"),
    (PyStr.contains "*" pat), (PyStr.contains "?" pat); simpl; auto.
Qed.

(** A pattern without wildcards matches itself only. *)
Lemma fnmatch_literal (pat name : string) :
  Glob.has_magic pat = false ->
  Glob.fnmatch pat name = String.eqb name pat.
Proof.
  revert name. induction pat as [|c pat IH]; intros name Hm.
  - done.
  - apply has_magic_cons in Hm as (Hs & Hq & Hm).
    cbn [Glob.fnmatch]. rewrite Hs, Hq.
    destruct name as [|a name]; [done|].
    by rewrite eqb_cons, IH.
Qed.

(** [*] before a literal: the names that end with the literal. *)
Lemma fnmatch_star_literal (lit name : string) :
  Glob.has_magic lit = false ->
  Glob.fnmatch (String "*" lit) name = PyStr.endswith name lit.
Proof.
  intros Hm. induction name as [|c name IH].
  - rewrite fnmatch_star_nil, fnmatch_literal by done.
    cbn [PyStr.endswith]. by rewrite orb_false_r.
  - rewrite fnmatch_star_cons, IH, fnmatch_literal by done. done.
Qed.

Lemma fnmatch_ipynb (name : string) :
  Glob.fnmatch "*.ipynb" name = PyStr.endswith name ".ipynb".
Proof. by apply fnmatch_star_literal. Qed.

(** [glob('*/*.ipynb')]: the entries, not hidden and named [*.ipynb], of the
    entries of the current directory that are not hidden and can be
    listed. *)
Lemma glob_ipynb (listdir : string -> option (list string)) (fn : string) :
  In fn (Glob.glob listdir "*/*.ipynb") <->
  exists d n names names',
    listdir "." = Some names /\ In d names /\ Glob.ishidden d = false
    /\ listdir (listdir_arg d) = Some names' /\ In n names'
    /\ Glob.ishidden n = false /\ PyStr.endswith n ".ipynb" = true
    /\ fn = PosixPath.join d n.
Proof.
  unfold Glob.glob.
  change (PosixPath.split "*/*.ipynb") with ("*", "*.ipynb").
  cbn [String.eqb]. rewrite in_flat_map. unfold Glob.glob1 at 1.
  cbn [String.eqb].
  change (Glob.ishidden "*") with false. cbv iota.
  split.
  - intros (d & Hd & Hfn).
    destruct (listdir ".") as [names|] eqn:Hcwd; [|done].
    apply filter_In in Hd as [Hd _]. apply filter_In in Hd as [Hd Hh].
    apply in_map_iff in Hfn as (n & <- & Hn).
    unfold Glob.glob1 in Hn. fold (listdir_arg d) in Hn.
    destruct (listdir (listdir_arg d)) as [names'|] eqn:Hdir; [|done].
    change (Glob.ishidden "*.ipynb") with false in Hn. cbv iota in Hn.
    apply filter_In in Hn as [Hn Hm]. apply filter_In in Hn as [Hn Hh'].
    rewrite fnmatch_ipynb in Hm.
    exists d, n, names, names'.
    by rewrite <- (negb_involutive (Glob.ishidden d)),
         <- (negb_involutive (Glob.ishidden n)), Hh, Hh'.
  - intros (d & n & names & names' & Hcwd & Hd & Hh & Hdir & Hn & Hh' & Hm & ->).
    exists d. rewrite Hcwd. split.
    + apply filter_In. split; [|apply fnmatch_star].
      apply filter_In. by rewrite Hh.
    + apply in_map. unfold Glob.glob1. fold (listdir_arg d). rewrite Hdir.
      change (Glob.ishidden "*.ipynb") with false. cbv iota.
      apply filter_In. rewrite fnmatch_ipynb. split; [|done].
      apply filter_In. by rewrite Hh'.
Qed.

End GlobFacts.

(** ** Paths *)

Section PathFacts.

Local Arguments String.append : simpl nomatch.
Local Arguments Ascii.eqb : simpl never.

Lemma no_sep_cons (c : ascii) (s : string) :
  PyStr.contains "/" (String c s) = false ->
  Ascii.eqb c "/" = false /\ PyStr.contains "/" s = false.
Proof.
  rewrite contains_char_cons, (Ascii.eqb_sym "/"). apply orb_false_iff.
Qed.

Lemma entry_name_spec (n : string) :
  entry_name n = true -> n <> "" /\ PyStr.contains "/" n = false.
Proof.
  unfold entry_name. intros [Hne Hs]%andb_true_iff.
  apply negb_true_iff in Hne, Hs. by apply String.eqb_neq in Hne.
Qed.

Lemma proper_comp_spec (n : string) :
  proper_comp n = true ->
  n <> "" /\ PyStr.contains "/" n = false /\ n <> "." /\ n <> "..".
Proof.
  unfold proper_comp. intros [[He Hd]%andb_true_iff Hdd]%andb_true_iff.
  apply entry_name_spec in He as [? ?].
  apply negb_true_iff in Hd, Hdd.
  apply String.eqb_neq in Hd, Hdd. done.
Qed.

(** An entry that [glob] does not hide is neither [.] nor [..]. *)
Lemma visible_entry_proper (n : string) :
  entry_name n = true -> Glob.ishidden n = false -> proper_comp n = true.
Proof.
  intros He Hh. unfold proper_comp. rewrite He.
  destruct n as [|c n]; [done|].
  unfold Glob.ishidden in Hh. rewrite startswith_cons, startswith_nil in Hh.
  rewrite andb_true_r in Hh.
  rewrite !eqb_cons, (Ascii.eqb_sym c), Hh. done.
Qed.

(** *** [split] and [join] *)

Lemma cut_last_sep_no_sep (n : string) :
  PyStr.contains "/" n = false -> PosixPath.cut_last_sep n = ("", n).
Proof.
  induction n as [|c n IH]; [done|].
  intros [Hc Hn]%no_sep_cons. cbn [PosixPath.cut_last_sep].
  rewrite IH by done. unfold PosixPath.sep. by rewrite Hc.
Qed.

Lemma cut_last_sep_app (d n : string) :
  PyStr.contains "/" n = false ->
  PosixPath.cut_last_sep (d +:+ "/" +:+ n) = (d +:+ "/", n).
Proof.
  intros Hn. induction d as [|c d IH].
  - change ("" +:+ "/" +:+ n) with (String "/" n).
    cbn [PosixPath.cut_last_sep]. by rewrite cut_last_sep_no_sep.
  - change (String c d +:+ "/" +:+ n) with (String c (d +:+ "/" +:+ n)).
    cbn [PosixPath.cut_last_sep]. rewrite IH. by destruct d.
Qed.

Lemma rstrip_sep (d : string) :
  PyStr.contains "/" d = false -> PyStr.rstrip "/" (d +:+ "/") = d.
Proof.
  induction d as [|c d IH]; [done|].
  intros [Hc Hd]%no_sep_cons.
  change (String c d +:+ "/") with (String c (d +:+ "/")).
  cbn [PyStr.rstrip]. rewrite IH by done. rewrite Hc. by destruct d.
Qed.

Lemma split_entry (d n : string) :
  entry_name d = true -> PyStr.contains "/" n = false ->
  PosixPath.split (d +:+ "/" +:+ n) = (d, n).
Proof.
  intros [Hne Hd]%entry_name_spec Hn. unfold PosixPath.split.
  rewrite cut_last_sep_app by done.
  destruct d as [|c d]; [done|].
  apply no_sep_cons in Hd as [Hc Hd'].
  replace (String.eqb (String c d +:+ "/") "") with false by done.
  replace (String.eqb (String c d +:+ "/")
             (PyStr.repeat PosixPath.sep (String.length (String c d +:+ "/"))))
    with false.
  - cbn [negb andb]. rewrite rstrip_sep; [done|].
    by rewrite contains_char_cons, (Ascii.eqb_sym "/"), Hc.
  - change (String c d +:+ "/") with (String c (d +:+ "/")).
    cbn [String.length PyStr.repeat]. unfold PosixPath.sep.
    by rewrite eqb_cons, Hc.
Qed.

Lemma endswith_no_sep (d : string) :
  PyStr.contains "/" d = false -> PyStr.endswith d "/" = false.
Proof.
  induction d as [|c d IH]; [done|].
  intros [Hc Hd]%no_sep_cons. cbn [PyStr.endswith].
  by rewrite eqb_cons, Hc, IH.
Qed.

Lemma startswith_no_sep (n : string) :
  PyStr.contains "/" n = false -> PyStr.startswith n "/" = false.
Proof.
  destruct n as [|c n]; [done|]. intros [Hc _]%no_sep_cons.
  by rewrite startswith_cons, (Ascii.eqb_sym "/"), Hc.
Qed.

Lemma join_entry (d n : string) :
  entry_name d = true -> PyStr.contains "/" n = false ->
  PosixPath.join d n = d +:+ "/" +:+ n.
Proof.
  intros [Hne Hd]%entry_name_spec Hn. unfold PosixPath.join.
  rewrite startswith_no_sep, endswith_no_sep by done.
  apply String.eqb_neq in Hne. by rewrite Hne.
Qed.

(** The directory part of a name made by [glob] is its first component. *)
Lemma split_join_entry (d n : string) :
  entry_name d = true -> PyStr.contains "/" n = false ->
  fst (PosixPath.split (PosixPath.join d n)) = d.
Proof. intros Hd Hn. by rewrite join_entry, split_entry. Qed.

End PathFacts.

(** *** [normpath] and [abspath] *)

Section NormFacts.

Local Arguments String.append : simpl nomatch.
Local Arguments Ascii.eqb : simpl never.

Lemma join_cons (sep w : string) (ws : list string) :
  ws <> [] -> PyStr.join sep (w :: ws) = w +:+ sep +:+ PyStr.join sep ws.
Proof. by destruct ws. Qed.

Lemma join_app (sep : string) (l1 l2 : list string) :
  l1 <> [] -> l2 <> [] ->
  PyStr.join sep (l1 ++ l2) = PyStr.join sep l1 +:+ sep +:+ PyStr.join sep l2.
Proof.
  intros H1 H2. induction l1 as [|w [|w' l1] IH]; [done| |].
  - change ([w] ++ l2) with (w :: l2). by rewrite join_cons.
  - change ((w :: w' :: l1) ++ l2) with (w :: (w' :: l1) ++ l2).
    rewrite !join_cons by done. rewrite IH by done.
    by rewrite !str_app_assoc.
Qed.

Lemma split_no_sep (w : string) :
  PyStr.contains "/" w = false -> PyStr.split "/" w = [w].
Proof.
  induction w as [|c w IH]; [done|].
  intros [Hc Hw]%no_sep_cons. cbn [PyStr.split]. by rewrite Hc, IH.
Qed.

Lemma split_app (w rest : string) :
  PyStr.contains "/" w = false ->
  PyStr.split "/" (w +:+ "/" +:+ rest) = w :: PyStr.split "/" rest.
Proof.
  induction w as [|c w IH]; [done|].
  intros [Hc Hw]%no_sep_cons.
  change (String c w +:+ "/" +:+ rest) with (String c (w +:+ "/" +:+ rest)).
  cbn [PyStr.split]. by rewrite Hc, IH.
Qed.

(** Splitting undoes joining, for components without a slash. *)
Lemma split_join (l : list string) :
  l <> [] -> Forall (fun w => PyStr.contains "/" w = false) l ->
  PyStr.split "/" (PyStr.join "/" l) = l.
Proof.
  intros Hne Hl. induction Hl as [|w [|w' l] Hw Hl IH]; [done| |].
  - by apply split_no_sep.
  - rewrite join_cons by done. rewrite split_app by done. f_equal. by apply IH.
Qed.

Lemma normpath_step_skip (k : nat) (acc : list string) (comp : string) :
  comp = "" \/ comp = "." -> PosixPath.normpath_step k acc comp = acc.
Proof. by intros [-> | ->]. Qed.

Lemma normpath_step_proper (k : nat) (acc : list string) (comp : string) :
  proper_comp comp = true -> PosixPath.normpath_step k acc comp = acc ++ [comp].
Proof.
  intros (Hne & _ & Hd & Hdd)%proper_comp_spec.
  unfold PosixPath.normpath_step.
  apply String.eqb_neq in Hne, Hd, Hdd. by rewrite Hne, Hd, Hdd.
Qed.

Lemma normpath_fold_proper (k : nat) (l acc : list string) :
  forallb proper_comp l = true ->
  fold_left (PosixPath.normpath_step k) l acc = acc ++ l.
Proof.
  revert acc. induction l as [|w l IH]; intros acc Hl; simpl.
  - by rewrite app_nil_r.
  - apply andb_true_iff in Hl as [Hw Hl].
    rewrite normpath_step_proper, IH by done. by rewrite <- (assoc_L (++)).
Qed.

Lemma proper_no_sep (l : list string) :
  forallb proper_comp l = true ->
  Forall (fun w => PyStr.contains "/" w = false) l.
Proof.
  induction l as [|w l IH]; [constructor|].
  intros [Hw Hl]%andb_true_iff. constructor; [|auto].
  by apply proper_comp_spec in Hw as (_ & ? & _).
Qed.

(** The path of [d] below the root-relative directory [comps], as the driver
    builds it, normalises to the components of the directory followed by
    [d]. *)
Lemma normpath_dot_entry (comps : list string) (d : string) :
  forallb proper_comp comps = true -> proper_comp d = true ->
  PosixPath.normpath ("/" +:+ PyStr.join "/" (comps ++ ["."; d]))
  = "/" +:+ PyStr.join "/" (comps ++ [d]).
Proof.
  intros Hc Hd.
  assert (Forall (fun w => PyStr.contains "/" w = false) (comps ++ ["."; d]))
    as Hns.
  { apply Forall_app. split; [by apply proper_no_sep|].
    apply proper_comp_spec in Hd as (_ & ? & _). by repeat constructor. }
  assert (comps ++ ["."; d] <> []) as Hne by (by destruct comps).
  unfold PosixPath.normpath.
  change ("/" +:+ PyStr.join "/" (comps ++ ["."; d]))
    with (String "/" (PyStr.join "/" (comps ++ ["."; d]))).
  cbn [String.eqb].
  replace (PyStr.startswith (String "/" (PyStr.join "/" (comps ++ ["."; d]))) "//")
    with false.
  - cbn [PyStr.startswith andb]. change (Ascii.eqb "/" "/") with true. cbv iota.
    cbn [PyStr.startswith]. cbv iota.
    cbn [PyStr.split]. unfold PosixPath.sep.
    change (Ascii.eqb "/" "/") with true. cbv iota.
    rewrite split_join by done.
    cbn [fold_left]. rewrite normpath_step_skip by auto.
    rewrite fold_left_app. rewrite (normpath_fold_proper _ comps) by done.
    cbn [fold_left app]. rewrite (normpath_step_skip _ _ ".") by auto.
    rewrite normpath_step_proper by done. by rewrite startswith_nil.
  - symmetry. rewrite startswith_cons, Ascii.eqb_refl.
    destruct comps as [|w comps]; [done|].
    apply andb_true_iff in Hc as [Hw _].
    apply proper_comp_spec in Hw as (Hwne & Hws & _).
    change ((w :: comps) ++ ["."; d]) with (w :: (comps ++ ["."; d])).
    rewrite join_cons by (by destruct comps).
    destruct w as [|c w]; [done|].
    apply no_sep_cons in Hws as [Hcs _].
    change (String c w +:+ "/" +:+ ?x) with (String c (w +:+ "/" +:+ x)).
    by rewrite startswith_cons, (Ascii.eqb_sym "/"), Hcs.
Qed.

Lemma endswith_app_char (a s : string) (c : ascii) :
  s <> "" ->
  PyStr.endswith (a +:+ s) (String c "") = PyStr.endswith s (String c "").
Proof.
  intros Hs. induction a as [|x a IH]; [done|].
  change (String x a +:+ s) with (String x (a +:+ s)).
  cbn [PyStr.endswith]. rewrite IH, eqb_cons.
  replace (String.eqb (a +:+ s) "") with false; [by rewrite andb_false_r|].
  symmetry. apply String.eqb_neq. by intros [_ ?]%str_app_eq_nil.
Qed.

Lemma join_proper_nonempty (l : list string) :
  l <> [] -> forallb proper_comp l = true -> PyStr.join "/" l <> "".
Proof.
  destruct l as [|w l]; [done|]. intros _ [Hw _]%andb_true_iff.
  apply proper_comp_spec in Hw as (Hw & _).
  destruct l; [done|]. rewrite join_cons by done.
  by intros [? _]%str_app_eq_nil.
Qed.

Lemma endswith_join_proper (l : list string) :
  l <> [] -> forallb proper_comp l = true ->
  PyStr.endswith (PyStr.join "/" l) "/" = false.
Proof.
  intros Hne Hl. induction l as [|w [|w' l] IH]; [done| |].
  - apply andb_true_iff in Hl as [Hw _].
    apply proper_comp_spec in Hw as (_ & Hw & _). by apply endswith_no_sep.
  - apply andb_true_iff in Hl as [_ Hl].
    rewrite join_cons by done.
    rewrite <- str_app_assoc, endswith_app_char; [by apply IH|].
    by apply join_proper_nonempty.
Qed.

(** [os.path.join(cwd, './' + d)] for a normalised absolute [cwd]. *)
Lemma join_cwd_dot_entry (comps : list string) (d : string) :
  forallb proper_comp comps = true ->
  PosixPath.join ("/" +:+ PyStr.join "/" comps) ("./" +:+ d)
  = "/" +:+ PyStr.join "/" (comps ++ ["."; d]).
Proof.
  intros Hc. unfold PosixPath.join.
  change (PyStr.startswith ("./" +:+ d) "/") with false. cbv iota.
  change (String.eqb ("/" +:+ PyStr.join "/" comps) "") with false.
  cbn [orb].
  destruct comps as [|w comps]; [done|].
  rewrite endswith_app_char by (by apply join_proper_nonempty).
  rewrite endswith_join_proper by done.
  rewrite (join_app "/" (w :: comps) ["."; d]) by done.
  by rewrite !str_app_assoc.
Qed.

(** The directory that the driver computes for a notebook [d/n] found by
    [glob] under a normalised current directory. *)
Lemma nb_dir_entry (comps : list string) (d n : string) :
  forallb proper_comp comps = true ->
  entry_name d = true -> Glob.ishidden d = false ->
  PyStr.contains "/" n = false ->
  nb_dir ("/" +:+ PyStr.join "/" comps) (PosixPath.join d n)
  = "/" +:+ PyStr.join "/" (comps ++ [d]).
Proof.
  intros Hc Hd Hh Hn. unfold nb_dir.
  rewrite split_join_entry by done.
  pose proof (entry_name_spec _ Hd) as [_ Hds].
  assert (PosixPath.join "." d = "./" +:+ d) as ->.
  { unfold PosixPath.join. by rewrite startswith_no_sep. }
  unfold PosixPath.abspath.
  change (PosixPath.isabs ("./" +:+ d)) with false. cbv iota.
  rewrite join_cwd_dot_entry by done.
  apply normpath_dot_entry; [done|]. by apply visible_entry_proper.
Qed.

End NormFacts.

(** ** The properties of the specification *)

Lemma str_app_length (s t : string) :
  String.length (s +:+ t) = String.length s + String.length t.
Proof. induction s as [|c s IH]; simpl; [done | by rewrite IH]. Qed.

Lemma dir_below_differs (comps : list string) (d : string) :
  d <> "" ->
  "/" +:+ PyStr.join "/" (comps ++ [d]) <> "/" +:+ PyStr.join "/" comps.
Proof.
  intros Hd Heq. apply (f_equal String.length) in Heq.
  destruct comps as [|w comps].
  - destruct d; [done | discriminate Heq].
  - rewrite (join_app "/" (w :: comps) [d]) in Heq by done.
    rewrite !str_app_length in Heq. destruct d; [done|]. simpl in Heq. lia.
Qed.

(** Every notebook of the list is either called, with the kernel and the
    directory that the driver computes for it, or left out because some call
    did not return [True]. *)
Lemma trace_reached (k cwd : string) (l : list string) (cs : list call)
    (r : result bool) (nbfn : string) :
  driver_trace k cwd l cs r -> In nbfn l ->
  (exists c,
      c ∈ cs /\ call_nb_in_fn c = nbfn /\ call_kernel_name c = k
      /\ call_run_path c = nb_dir cwd nbfn)
  \/ (exists c, c ∈ cs /\ call_result c <> Returned true).
Proof.
  induction 1 as [|x l cs r _ IH|x l|x l name]; intros Hin.
  - destruct Hin.
  - destruct Hin as [-> | Hin].
    + left. eexists. split; [apply list_elem_of_here | done].
    + destruct (IH Hin) as [(c & Hc & Hrest) | (c & Hc & Hne)].
      * left. exists c. split; [by apply list_elem_of_further | done].
      * right. exists c. split; [by apply list_elem_of_further | done].
  - right. eexists. split; [apply list_elem_of_here | done].
  - right. eexists. split; [apply list_elem_of_here | done].
Qed.

Section Claims.

Variable notebook : Type.
Variable nbformat_read : string -> Z -> string + notebook.
Variable nbformat_write : notebook -> string.
Variable preprocess :
  ExecutePreprocessor -> notebook -> resources -> FileSystem ->
  FileSystem * notebook * engine_outcome.

Abbreviation State := (State notebook).
Abbreviation execute := (execute notebook nbformat_read nbformat_write preprocess).
Abbreviation main := (main notebook nbformat_read nbformat_write preprocess).
Abbreviation calls_made :=
  (calls_made notebook nbformat_read nbformat_write preprocess).

(** X1.  The driver works through the list until a call does not return
    [True]: the calls are made on an initial part of the list, in its order,
    every call but the last returned [True], and the whole list is reached
    only when every call returned [True]. *)
Lemma driver_stops_at_first_failure (s : State) :
  map call_nb_in_fn (calls_made s) `prefix_of` discovered s
  /\ (forall cs c cs', calls_made s = cs ++ c :: cs' ->
      call_result c <> Returned true -> cs' = [])
  /\ (Forall call_ok (calls_made s) ->
      map call_nb_in_fn (calls_made s) = discovered s).
Proof.
  destruct (main_trace _ nbformat_read nbformat_write preprocess s)
    as (r & Htr & _).
  split; [by eapply trace_prefix|]. split.
  - clear -Htr. induction Htr as [|nbfn l cs r _ IH|nbfn l|nbfn l name];
      intros pre c post Heq Hc.
    + by destruct pre.
    + destruct pre as [|c0 pre]; simplify_eq/=; try done; by eapply IH.
    + destruct pre as [|c0 [|c1 pre]]; by simplify_eq/=.
    + destruct pre as [|c0 [|c1 pre]]; by simplify_eq/=.
  - intros Hok. eapply trace_complete; [done|]. by eapply trace_true_iff.
Qed.

(** C2.  The exit status of the script is 0 exactly when every call of
    [execute] that the driver made returned [True], and it is 1 as soon as
    one call returned [False]. *)
Theorem exit_status_all_calls_true (s : State) :
  (exit_status (snd (main s)) = 0%Z <-> Forall call_ok (calls_made s))
  /\ (Exists (fun c => call_result c = Returned false) (calls_made s) ->
      exit_status (snd (main s)) = 1%Z).
Proof.
  destruct (main_trace _ nbformat_read nbformat_write preprocess s)
    as (r & Htr & ->).
  pose proof (trace_true_iff _ _ _ Htr) as Hiff.
  split.
  - rewrite <- Hiff.
    destruct (trace_result _ _ _ Htr) as [[[|] ->] | [name ->]]; by simpl.
  - intros Hex. by rewrite (trace_some_false _ _ _ Htr Hex).
Qed.

(** C4.  When the engine raises its cell-execution error on a loaded
    document, [execute] catches it, prints the line that names the input path
    and then the traceback, returns [False], and leaves the partially
    executed document in the output file (which the system lets it open for
    writing). *)
Theorem execute_cell_error (nb_in_fn k rp : string) (s : State)
    (text : string) (doc doc' : notebook) (fs' : FileSystem) (tb : string) :
  files (fs s) !! nb_in_fn = Some text ->
  nbformat_read text 4 = inr doc ->
  preprocess (mkEP 600 k) doc (mkResources rp) (fs s)
    = (fs', doc', CellFailed tb) ->
  writable fs' (nb_out_fn nb_in_fn) = true ->
  snd (execute nb_in_fn k rp s) = Returned false
  /\ stdout (fst (execute nb_in_fn k rp s))
     = stdout s
       ++ [[VStr ("Error executing the notebook " +:+ String "034" nb_in_fn
                  +:+ String "034" ". Traceback:")];
           [VStr tb]]
  /\ files (fs (fst (execute nb_in_fn k rp s))) !! nb_out_fn nb_in_fn
     = Some (nbformat_write doc').
Proof.
  intros Hf Hp He Hw. rewrite (execute_loaded _ _ _ _ _ _ _ _ _ _ _ _ _ Hf Hp He).
  rewrite Hw. cbn [fst snd outcome_result]. repeat split.
  cbn [fs set_fs files set_file]. apply lookup_insert_eq.
Qed.

(** C5.  Once the document is loaded, the output file is written however the
    engine ends: when it completes, when it raises the cell-execution error,
    and when it raises anything else, in which case the exception leaves
    [execute] from a state in which the file is already written. *)
Theorem execute_always_writes (nb_in_fn k rp : string) (s : State)
    (text : string) (doc doc' : notebook) (fs' : FileSystem)
    (o : engine_outcome) :
  files (fs s) !! nb_in_fn = Some text ->
  nbformat_read text 4 = inr doc ->
  preprocess (mkEP 600 k) doc (mkResources rp) (fs s) = (fs', doc', o) ->
  writable fs' (nb_out_fn nb_in_fn) = true ->
  files (fs (fst (execute nb_in_fn k rp s))) !! nb_out_fn nb_in_fn
    = Some (nbformat_write doc')
  /\ snd (execute nb_in_fn k rp s)
     = match o with
       | CellsDone => Returned true
       | CellFailed _ => Returned false
       | EngineError name => Raised (OtherException name)
       end.
Proof.
  intros Hf Hp He Hw. rewrite (execute_loaded _ _ _ _ _ _ _ _ _ _ _ _ _ Hf Hp He).
  rewrite Hw. cbn [fst snd]. split; [|done].
  cbn [fs set_fs files set_file]. apply lookup_insert_eq.
Qed.

(** C6.  The boolean that [execute] returns is [True] exactly when the engine
    raised no cell-execution error; and [execute] does return one whenever
    the engine completes or fails on a cell and the output file can be
    written. *)
Theorem execute_return_value (nb_in_fn k rp : string) (s : State)
    (text : string) (doc doc' : notebook) (fs' : FileSystem)
    (o : engine_outcome) :
  files (fs s) !! nb_in_fn = Some text ->
  nbformat_read text 4 = inr doc ->
  preprocess (mkEP 600 k) doc (mkResources rp) (fs s) = (fs', doc', o) ->
  (forall b, snd (execute nb_in_fn k rp s) = Returned b ->
     (b = true <-> forall tb, o <> CellFailed tb))
  /\ (writable fs' (nb_out_fn nb_in_fn) = true ->
      (forall name, o <> EngineError name) ->
      exists b, snd (execute nb_in_fn k rp s) = Returned b).
Proof.
  intros Hf Hp He. rewrite (execute_loaded _ _ _ _ _ _ _ _ _ _ _ _ _ Hf Hp He).
  destruct (writable fs' (nb_out_fn nb_in_fn)); cbn [snd]; split.
  - intros b Hb. destruct o as [|tb|name]; simplify_eq/=.
    + split; [done|]. done.
    + split; [done|]. intros Hno. by destruct (Hno tb).
  - intros _ Hne. destruct o as [|tb|name]; simpl; eauto.
    by destruct (Hne name).
  - done.
  - done.
Qed.

(** C7.  Nothing but the cell-execution error is caught.  In [execute], a
    missing input file, a malformed document, an error of the engine that is
    no cell failure (a timeout is one) and a failure to write the output all
    leave the function as exceptions; and an exception that leaves a call of
    [execute] ends the script there, with exit status 1. *)
Theorem other_exceptions_propagate (s : State) :
  (forall nb_in_fn k rp,
     (files (fs s) !! nb_in_fn = None ->
      execute nb_in_fn k rp s
      = (s, Raised (OtherException "FileNotFoundError")))
     /\ (forall text name,
           files (fs s) !! nb_in_fn = Some text ->
           nbformat_read text 4 = inl name ->
           execute nb_in_fn k rp s = (s, Raised (OtherException name)))
     /\ (forall text doc fs' doc' o,
           files (fs s) !! nb_in_fn = Some text ->
           nbformat_read text 4 = inr doc ->
           preprocess (mkEP 600 k) doc (mkResources rp) (fs s)
             = (fs', doc', o) ->
           (forall name,
              o = EngineError name ->
              writable fs' (nb_out_fn nb_in_fn) = true ->
              snd (execute nb_in_fn k rp s) = Raised (OtherException name))
           /\ (writable fs' (nb_out_fn nb_in_fn) = false ->
               snd (execute nb_in_fn k rp s)
               = Raised (OtherException "OSError"))))
  /\ (forall c e,
        c ∈ calls_made s -> call_result c = Raised e ->
        snd (main s) = Raised e
        /\ exit_status (snd (main s)) = 1%Z
        /\ exists name, e = OtherException name).
Proof.
  split.
  - intros nb_in_fn k rp. split; [apply execute_missing|].
    split; [apply execute_malformed|].
    intros text doc fs' doc' o Hf Hp He.
    rewrite (execute_loaded _ _ _ _ _ _ _ _ _ _ _ _ _ Hf Hp He). split.
    + by intros name -> ->.
    + by intros ->.
  - intros c e Hin Hc.
    destruct (main_trace _ nbformat_read nbformat_write preprocess s)
      as (r & Htr & ->).
    destruct (trace_raised _ _ _ _ _ Htr Hin Hc) as [-> [name ->]]. eauto.
Qed.

(** C8.  The notebooks that the driver runs are exactly the entries named
    [*.ipynb] one directory below the current one, as [glob] finds them
    (hidden entries left out), without those whose name ends in
    [.nbconvert.ipynb]; no call of [execute] is made on such a name. *)
Theorem discover_selects_inputs (s : State) :
  discover notebook s = (s, Returned (discovered s))
  /\ (forall fn,
        In fn (discovered s) <->
        (exists d n names names',
            listdir (fs s) "." = Some names /\ In d names
            /\ Glob.ishidden d = false
            /\ listdir (fs s) (listdir_arg d) = Some names' /\ In n names'
            /\ Glob.ishidden n = false /\ PyStr.endswith n ".ipynb" = true
            /\ fn = PosixPath.join d n)
        /\ PyStr.endswith fn ".nbconvert.ipynb" = false)
  /\ (forall c, c ∈ calls_made s ->
        In (call_nb_in_fn c) (discovered s)
        /\ PyStr.endswith (call_nb_in_fn c) ".nbconvert.ipynb" = false).
Proof.
  assert (forall fn, In fn (discovered s) <->
            In fn (Glob.glob (listdir (fs s)) "*/*.ipynb")
            /\ PyStr.endswith fn ".nbconvert.ipynb" = false) as Hfilter.
  { intros fn. unfold discovered. rewrite filter_In, negb_true_iff. done. }
  split; [done|]. split.
  - intros fn. by rewrite Hfilter, glob_ipynb.
  - intros c Hin.
    destruct (main_trace _ nbformat_read nbformat_write preprocess s)
      as (r & Htr & _).
    destruct (trace_args _ _ _ _ Htr Hin) as (Hl & _).
    apply list_elem_of_In in Hl. split; [done|]. by apply Hfilter in Hl as [_ ?].
Qed.

(** C9.  For an input path in which [.ipynb] does not occur, the output path
    is the input path: whatever the engine does with the loaded document, the
    write replaces the input file by the processed document. *)
Theorem execute_overwrites_input (nb_in_fn k rp : string) (s : State)
    (text : string) (doc doc' : notebook) (fs' : FileSystem)
    (o : engine_outcome) :
  PyStr.contains ".ipynb" nb_in_fn = false ->
  files (fs s) !! nb_in_fn = Some text ->
  nbformat_read text 4 = inr doc ->
  preprocess (mkEP 600 k) doc (mkResources rp) (fs s) = (fs', doc', o) ->
  writable fs' nb_in_fn = true ->
  nb_out_fn nb_in_fn = nb_in_fn
  /\ files (fs (fst (execute nb_in_fn k rp s))) !! nb_in_fn
     = Some (nbformat_write doc').
Proof.
  intros Habs Hf Hp He Hw.
  assert (nb_out_fn nb_in_fn = nb_in_fn) as Hout
    by (by apply replace_absent).
  split; [done|].
  rewrite (execute_loaded _ _ _ _ _ _ _ _ _ _ _ _ _ Hf Hp He).
  rewrite Hout, Hw. cbn [fst fs set_fs files set_file].
  apply lookup_insert_eq.
Qed.

(** C10.  With the script started in the directory [/c1/.../ck] and entries
    named as a file system names them, every notebook found is a path [d/n],
    and the working directory of its run is the absolute path [/c1/.../ck/d]
    of its own directory, not the directory of the invocation.  This is the
    value that the driver computes for the notebook; the turn of the loop
    for the notebook, entered with [succeeded] true, is the call of
    [execute] on it with the kernel [python3] and this [run_path]; in the
    run, the call on the notebook is in the log with this [run_path], unless
    a call did not return [True] (the loop then calls nothing further); and
    [execute] hands the [run_path] to the engine, as the path of the
    resources' metadata, the run of the engine there deciding how the call
    ends.  Every call of the log is one of these. *)
Theorem run_path_is_notebook_directory (s : State) (comps : list string) :
  cwd s = "/" +:+ PyStr.join "/" comps ->
  forallb proper_comp comps = true ->
  (forall d names,
     listdir (fs s) d = Some names -> forallb entry_name names = true) ->
  (forall nbfn, In nbfn (discovered s) ->
     exists d n run_path,
       nbfn = d +:+ "/" +:+ n
       /\ run_path = "/" +:+ PyStr.join "/" (comps ++ [d])
       /\ PosixPath.isabs run_path = true
       /\ run_path <> cwd s
       /\ nb_dir (cwd s) nbfn = run_path
       /\ (forall s', cwd s' = cwd s ->
             RunNotebooks.loop_body notebook nbformat_read nbformat_write
               preprocess "python3" true nbfn s'
             = logged_execute notebook nbformat_read nbformat_write
                 preprocess nbfn "python3" run_path s')
       /\ ((exists c,
               c ∈ calls_made s /\ call_nb_in_fn c = nbfn
               /\ call_kernel_name c = "python3"
               /\ call_run_path c = run_path)
           \/ (exists c,
                  c ∈ calls_made s /\ call_result c <> Returned true))
       /\ (forall s' text doc fs' doc' o,
             files (fs s') !! nbfn = Some text ->
             nbformat_read text 4 = inr doc ->
             preprocess (mkEP 600 "python3") doc (mkResources run_path)
               (fs s') = (fs', doc', o) ->
             execute nbfn "python3" run_path s'
             = if writable fs' (nb_out_fn nbfn)
               then (set_fs (set_file (nb_out_fn nbfn) (nbformat_write doc'))
                       (after_try s' nbfn fs' doc' o),
                     outcome_result o)
               else (after_try s' nbfn fs' doc' o,
                     Raised (OtherException "OSError"))))
  /\ (forall c, c ∈ calls_made s ->
        exists d n,
          call_nb_in_fn c = d +:+ "/" +:+ n
          /\ In (call_nb_in_fn c) (discovered s)
          /\ call_kernel_name c = "python3"
          /\ call_run_path c = "/" +:+ PyStr.join "/" (comps ++ [d])
          /\ PosixPath.isabs (call_run_path c) = true
          /\ call_run_path c <> cwd s).
Proof.
  intros Hcwd Hcomps Hnames.
  destruct (main_trace _ nbformat_read nbformat_write preprocess s)
    as (r & Htr & _).
  assert (forall nbfn, In nbfn (discovered s) ->
            exists d n,
              nbfn = d +:+ "/" +:+ n
              /\ entry_name d = true
              /\ nb_dir (cwd s) nbfn = "/" +:+ PyStr.join "/" (comps ++ [d]))
    as Hdir.
  { intros nbfn Hl. unfold discovered in Hl.
    apply filter_In in Hl as [Hl _].
    apply glob_ipynb in Hl
      as (d & n & names & names' & Hls & Hd & Hh & Hls' & Hn & _ & _ & ->).
    assert (entry_name d = true) as Hde.
    { pose proof (Hnames _ _ Hls) as Hall.
      rewrite forallb_forall in Hall. by apply Hall. }
    assert (PyStr.contains "/" n = false) as Hns.
    { pose proof (Hnames _ _ Hls') as Hall.
      rewrite forallb_forall in Hall. by apply entry_name_spec, Hall. }
    exists d, n. rewrite Hcwd, nb_dir_entry by done.
    split; [by apply join_entry | done]. }
  assert (forall d, entry_name d = true ->
            PosixPath.isabs ("/" +:+ PyStr.join "/" (comps ++ [d])) = true
            /\ "/" +:+ PyStr.join "/" (comps ++ [d]) <> cwd s) as Habs.
  { intros d Hde. split.
    - unfold PosixPath.isabs.
      change ("/" +:+ PyStr.join "/" (comps ++ [d]))
        with (String "/" (PyStr.join "/" (comps ++ [d]))).
      by rewrite startswith_cons, startswith_nil.
    - rewrite Hcwd. apply dir_below_differs.
      by apply entry_name_spec in Hde as [? _]. }
  split.
  - intros nbfn Hin. destruct (Hdir nbfn Hin) as (d & n & Hfn & Hde & Hnb).
    destruct (Habs d Hde) as [Hisabs Hne].
    exists d, n, ("/" +:+ PyStr.join "/" (comps ++ [d])).
    split; [done|]. split; [done|]. split; [done|]. split; [done|].
    split; [done|]. split; [|split].
    + intros s' Hcwd'.
      unfold RunNotebooks.loop_body, bind, abspath. rewrite Hcwd'.
      fold (nb_dir (cwd s) nbfn). by rewrite Hnb.
    + rewrite <- Hnb. by eapply trace_reached.
    + intros s' text doc fs' doc' o Hf Hp He. by eapply execute_loaded.
  - intros c Hin.
    destruct (trace_args _ _ _ _ Htr Hin) as (Hl & Hk & Hrp).
    apply list_elem_of_In in Hl.
    destruct (Hdir _ Hl) as (d & n & Hfn & Hde & Hnb).
    destruct (Habs d Hde) as [Hisabs Hne].
    exists d, n. rewrite Hrp, Hnb. done.
Qed.

End Claims.

(** ** The properties on the small instance *)

(** C1 (the code departs from it).  The driver does not call [execute] on
    every document it found: on the two notebooks [a/bad.ipynb], whose cell
    fails, and [b/good.ipynb], which would run to the end, the only call made
    is the one on [a/bad.ipynb]; [b/good.nbconvert.ipynb] is never written,
    and the script exits with status 1. *)
Theorem driver_skips_after_a_failure :
  Demo.discover Demo.start
  = (Demo.start, Returned ["a/bad.ipynb"; "b/good.ipynb"])
  /\ map (fun c => (call_nb_in_fn c, call_result c)) (Demo.calls_made Demo.start)
     = [("a/bad.ipynb", Returned false)]
  /\ snd (Demo.execute "b/good.ipynb" "python3" "/home/u/nbs/b" Demo.start)
     = Returned true
  /\ files (fs (fst (Demo.main Demo.start))) !! "b/good.nbconvert.ipynb" = None
  /\ exit_status (snd (Demo.main Demo.start)) = 1%Z.
Proof. split; [reflexivity|]. vm_compute. repeat split. Qed.

(** C3 (the code departs from it).  [execute] replaces every occurrence of
    [.ipynb] in the input path, not the trailing one alone: for the notebook
    [n.ipynb] in a directory named [x.ipynb], a path that [glob] returns and
    that ends in [.ipynb], the output path is
    [x.nbconvert.ipynb/n.nbconvert.ipynb] and not
    [x.ipynb/n.nbconvert.ipynb]. *)
Theorem output_name_replaces_every_occurrence :
  Glob.glob Demo.tree_dotted "*/*.ipynb" = ["x.ipynb/n.ipynb"]
  /\ PyStr.endswith "x.ipynb/n.ipynb" ".ipynb" = true
  /\ nb_out_fn "x.ipynb/n.ipynb" = "x.nbconvert.ipynb/n.nbconvert.ipynb"
  /\ String.eqb (nb_out_fn "x.ipynb/n.ipynb") "x.ipynb/n.nbconvert.ipynb"
     = false.
Proof. vm_compute. repeat split. Qed.

Lemma exit_status_all_calls_true_witness :
  Exists (fun c => call_result c = Returned false) (Demo.calls_made Demo.start)
  /\ exit_status (snd (Demo.main Demo.start)) = 1%Z
  /\ ~ Forall call_ok (Demo.calls_made Demo.start).
Proof.
  assert (Exists (fun c => call_result c = Returned false)
            (Demo.calls_made Demo.start)) as Hex.
  { vm_compute. apply Exists_cons_hd. reflexivity. }
  pose proof (exit_status_all_calls_true Demo.doc Demo.parse Demo.serialize
                Demo.engine Demo.start) as [Hiff Hone].
  split; [exact Hex|]. split; [exact (Hone Hex)|].
  intros Hall. apply Hiff in Hall. rewrite (Hone Hex) in Hall. discriminate Hall.
Defined.

Lemma execute_cell_error_witness :
  files (fs Demo.start) !! "a/bad.ipynb" = Some "print(1/0)"
  /\ Demo.parse "print(1/0)" 4 = inr ("print(1/0)", 0)
  /\ Demo.engine (mkEP 600 "python3") ("print(1/0)", 0)
       (mkResources "/home/u/nbs/a") (fs Demo.start)
     = (Demo.disk, ("print(1/0)", 1), CellFailed "ZeroDivisionError")
  /\ writable Demo.disk (nb_out_fn "a/bad.ipynb") = true
  /\ snd (Demo.execute "a/bad.ipynb" "python3" "/home/u/nbs/a" Demo.start)
     = Returned false
  /\ stdout (fst (Demo.execute "a/bad.ipynb" "python3" "/home/u/nbs/a"
                    Demo.start))
     = [[VStr ("Error executing the notebook "
               +:+ String "034" "a/bad.ipynb"
               +:+ String "034" ". Traceback:")];
        [VStr "ZeroDivisionError"]]
  /\ files (fs (fst (Demo.execute "a/bad.ipynb" "python3" "/home/u/nbs/a"
                       Demo.start))) !! "a/bad.nbconvert.ipynb"
     = Some "print(1/0)#!".
Proof.
  assert (files (fs Demo.start) !! "a/bad.ipynb" = Some "print(1/0)") as H1
    by reflexivity.
  assert (Demo.parse "print(1/0)" 4 = inr ("print(1/0)", 0)) as H2
    by reflexivity.
  assert (Demo.engine (mkEP 600 "python3") ("print(1/0)", 0)
            (mkResources "/home/u/nbs/a") (fs Demo.start)
          = (Demo.disk, ("print(1/0)", 1), CellFailed "ZeroDivisionError"))
    as H3 by reflexivity.
  assert (writable Demo.disk (nb_out_fn "a/bad.ipynb") = true) as H4
    by reflexivity.
  exact (conj H1 (conj H2 (conj H3 (conj H4
           (execute_cell_error Demo.doc Demo.parse Demo.serialize Demo.engine
              "a/bad.ipynb" "python3" "/home/u/nbs/a" Demo.start
              _ _ _ _ _ H1 H2 H3 H4))))).
Defined.

Lemma execute_always_writes_witness :
  files (fs Demo.start) !! "c/slow.ipynb" = Some "sleep(9)"
  /\ Demo.parse "sleep(9)" 4 = inr ("sleep(9)", 0)
  /\ Demo.engine (mkEP 600 "python3") ("sleep(9)", 0)
       (mkResources "/home/u/nbs/c") (fs Demo.start)
     = (Demo.disk, ("sleep(9)", 1), EngineError "TimeoutError")
  /\ writable Demo.disk (nb_out_fn "c/slow.ipynb") = true
  /\ files (fs (fst (Demo.execute "c/slow.ipynb" "python3" "/home/u/nbs/c"
                       Demo.start))) !! "c/slow.nbconvert.ipynb"
     = Some "sleep(9)#!"
  /\ snd (Demo.execute "c/slow.ipynb" "python3" "/home/u/nbs/c" Demo.start)
     = Raised (OtherException "TimeoutError").
Proof.
  assert (files (fs Demo.start) !! "c/slow.ipynb" = Some "sleep(9)") as H1
    by reflexivity.
  assert (Demo.parse "sleep(9)" 4 = inr ("sleep(9)", 0)) as H2 by reflexivity.
  assert (Demo.engine (mkEP 600 "python3") ("sleep(9)", 0)
            (mkResources "/home/u/nbs/c") (fs Demo.start)
          = (Demo.disk, ("sleep(9)", 1), EngineError "TimeoutError"))
    as H3 by reflexivity.
  assert (writable Demo.disk (nb_out_fn "c/slow.ipynb") = true) as H4
    by reflexivity.
  exact (conj H1 (conj H2 (conj H3 (conj H4
           (execute_always_writes Demo.doc Demo.parse Demo.serialize
              Demo.engine "c/slow.ipynb" "python3" "/home/u/nbs/c" Demo.start
              _ _ _ _ _ H1 H2 H3 H4))))).
Defined.

Lemma execute_return_value_witness :
  files (fs Demo.start) !! "b/good.ipynb" = Some "print(1)"
  /\ Demo.parse "print(1)" 4 = inr ("print(1)", 0)
  /\ Demo.engine (mkEP 600 "python3") ("print(1)", 0)
       (mkResources "/home/u/nbs/b") (fs Demo.start)
     = (set_file "/home/u/nbs/b/side.txt" "python3" Demo.disk,
        ("print(1)", 2), CellsDone)
  /\ snd (Demo.execute "b/good.ipynb" "python3" "/home/u/nbs/b" Demo.start)
     = Returned true
  /\ (true = true <-> forall tb, CellsDone <> CellFailed tb).
Proof.
  assert (files (fs Demo.start) !! "b/good.ipynb" = Some "print(1)") as H1
    by reflexivity.
  assert (Demo.parse "print(1)" 4 = inr ("print(1)", 0)) as H2 by reflexivity.
  assert (Demo.engine (mkEP 600 "python3") ("print(1)", 0)
            (mkResources "/home/u/nbs/b") (fs Demo.start)
          = (set_file "/home/u/nbs/b/side.txt" "python3" Demo.disk,
             ("print(1)", 2), CellsDone)) as H3 by reflexivity.
  assert (snd (Demo.execute "b/good.ipynb" "python3" "/home/u/nbs/b"
                 Demo.start) = Returned true) as H4 by (vm_compute; reflexivity).
  exact (conj H1 (conj H2 (conj H3 (conj H4
           (proj1 (execute_return_value Demo.doc Demo.parse Demo.serialize
                     Demo.engine "b/good.ipynb" "python3" "/home/u/nbs/b"
                     Demo.start _ _ _ _ _ H1 H2 H3) true H4))))).
Defined.

Lemma other_exceptions_propagate_witness :
  mkCall "c/slow.ipynb" "python3" "/home/u/nbs/c"
    (Raised (OtherException "TimeoutError"))
    ∈ Demo.calls_made Demo.start_slow
  /\ snd (Demo.main Demo.start_slow) = Raised (OtherException "TimeoutError")
  /\ exit_status (snd (Demo.main Demo.start_slow)) = 1%Z
  /\ files (fs Demo.start) !! "nowhere.ipynb" = None
  /\ Demo.execute "nowhere.ipynb" "python3" "." Demo.start
     = (Demo.start, Raised (OtherException "FileNotFoundError")).
Proof.
  assert (mkCall "c/slow.ipynb" "python3" "/home/u/nbs/c"
            (Raised (OtherException "TimeoutError"))
          ∈ Demo.calls_made Demo.start_slow) as Hin.
  { vm_compute. apply list_elem_of_here. }
  assert (files (fs Demo.start) !! "nowhere.ipynb" = None) as Hno
    by reflexivity.
  pose proof (other_exceptions_propagate Demo.doc Demo.parse Demo.serialize
                Demo.engine Demo.start_slow) as [_ Hdrv].
  pose proof (other_exceptions_propagate Demo.doc Demo.parse Demo.serialize
                Demo.engine Demo.start) as [Hexe _].
  destruct (Hdrv _ _ Hin eq_refl) as (Hres & Hst & _).
  destruct (Hexe "nowhere.ipynb" "python3" ".") as (Hmiss & _).
  exact (conj Hin (conj Hres (conj Hst (conj Hno (Hmiss Hno))))).
Defined.

Lemma discover_selects_inputs_witness :
  In "a/bad.ipynb" (discovered Demo.start)
  /\ PyStr.endswith "a/bad.ipynb" ".nbconvert.ipynb" = false
  /\ Demo.tree "a" = Some ["bad.ipynb"; "old.nbconvert.ipynb"]
  /\ ~ In "a/old.nbconvert.ipynb" (discovered Demo.start).
Proof.
  pose proof (discover_selects_inputs Demo.doc Demo.parse Demo.serialize
                Demo.engine Demo.start) as (_ & Hsel & _).
  assert (In "a/bad.ipynb" (discovered Demo.start)) as Hin.
  { apply Hsel. split; [|reflexivity].
    exists "a", "bad.ipynb", ["a"; ".git"; "b"; "README.md"],
      ["bad.ipynb"; "old.nbconvert.ipynb"].
    repeat split; simpl; auto. }
  split; [exact Hin|]. split; [exact (proj2 (proj1 (Hsel _) Hin))|].
  split; [reflexivity|].
  intros Hold. apply Hsel in Hold as [_ Hold]. discriminate Hold.
Defined.

Lemma execute_overwrites_input_witness :
  PyStr.contains ".ipynb" "plain" = false
  /\ files (fs Demo.start) !! "plain" = Some "print(2)"
  /\ Demo.parse "print(2)" 4 = inr ("print(2)", 0)
  /\ Demo.engine (mkEP 600 "python3") ("print(2)", 0) (mkResources ".")
       (fs Demo.start)
     = (set_file "./side.txt" "python3" Demo.disk, ("print(2)", 2), CellsDone)
  /\ writable (set_file "./side.txt" "python3" Demo.disk) "plain" = true
  /\ nb_out_fn "plain" = "plain"
  /\ files (fs (fst (Demo.execute "plain" "python3" "." Demo.start))) !! "plain"
     = Some "print(2)#!!".
Proof.
  assert (PyStr.contains ".ipynb" "plain" = false) as H0 by reflexivity.
  assert (files (fs Demo.start) !! "plain" = Some "print(2)") as H1
    by reflexivity.
  assert (Demo.parse "print(2)" 4 = inr ("print(2)", 0)) as H2 by reflexivity.
  assert (Demo.engine (mkEP 600 "python3") ("print(2)", 0) (mkResources ".")
            (fs Demo.start)
          = (set_file "./side.txt" "python3" Demo.disk, ("print(2)", 2),
             CellsDone)) as H3 by reflexivity.
  assert (writable (set_file "./side.txt" "python3" Demo.disk) "plain" = true)
    as H4 by reflexivity.
  exact (conj H0 (conj H1 (conj H2 (conj H3 (conj H4
           (execute_overwrites_input Demo.doc Demo.parse Demo.serialize
              Demo.engine "plain" "python3" "." Demo.start
              _ _ _ _ _ H0 H1 H2 H3 H4)))))).
Defined.

Lemma demo_tree_names (d : string) (names : list string) :
  Demo.tree d = Some names -> forallb entry_name names = true.
Proof.
  unfold Demo.tree. intros H.
  repeat (case_match; [by simplify_eq|]). done.
Qed.

Lemma run_path_is_notebook_directory_witness :
  cwd Demo.start = "/" +:+ PyStr.join "/" ["home"; "u"; "nbs"]
  /\ forallb proper_comp ["home"; "u"; "nbs"] = true
  /\ (forall d names,
        listdir (fs Demo.start) d = Some names ->
        forallb entry_name names = true)
  /\ discovered Demo.start = ["a/bad.ipynb"; "b/good.ipynb"]
  /\ nb_dir (cwd Demo.start) "b/good.ipynb" = "/home/u/nbs/b"
  /\ map call_run_path (Demo.calls_made Demo.start) = ["/home/u/nbs/a"]
  /\ files (fs (fst (Demo.main Demo.start_ok))) !! "/home/u/nbs/b/side.txt"
     = Some "python3"
  /\ (exists d n run_path,
        "b/good.ipynb" = d +:+ "/" +:+ n
        /\ run_path = "/" +:+ PyStr.join "/" (["home"; "u"; "nbs"] ++ [d])
        /\ PosixPath.isabs run_path = true
        /\ run_path <> cwd Demo.start
        /\ nb_dir (cwd Demo.start) "b/good.ipynb" = run_path).
Proof.
  assert (cwd Demo.start = "/" +:+ PyStr.join "/" ["home"; "u"; "nbs"]) as H1
    by reflexivity.
  assert (forallb proper_comp ["home"; "u"; "nbs"] = true) as H2
    by reflexivity.
  assert (In "b/good.ipynb" (discovered Demo.start)) as Hin
    by (simpl; auto).
  destruct (proj1 (run_path_is_notebook_directory Demo.doc Demo.parse
                     Demo.serialize Demo.engine Demo.start
                     ["home"; "u"; "nbs"] H1 H2 demo_tree_names)
              "b/good.ipynb" Hin)
    as (d & n & run_path & Hfn & Hrp & Habs & Hne & Hnb & _).
  refine (conj H1 (conj H2 (conj demo_tree_names (conj eq_refl (conj eq_refl
            (conj eq_refl (conj _ _))))))).
  - vm_compute. reflexivity.
  - exists d, n, run_path. auto.
Defined.

(** ** Further properties of the output name *)

Section OutputName.

Local Arguments String.append : simpl nomatch.
Local Arguments Ascii.eqb : simpl never.

(** An occurrence of [".ipynb"] that starts in a string cannot run over its
    end into a following [".ipynb"], nor across a following slash. *)
Lemma ipynb_starts_inside (c : ascii) (t rest : string) :
  PyStr.startswith (String c t) ".ipynb" = false ->
  (rest = ".ipynb" \/ exists n, rest = String "/" n) ->
  PyStr.startswith (String c t +:+ rest) ".ipynb" = false.
Proof.
  intros H [-> | [n ->]]; revert H;
    destruct t as [|c1 [|c2 [|c3 [|c4 [|c5 t]]]]]; simpl; case_eqb;
    by rewrite !startswith_nil.
Qed.

Lemma startswith_length (s p : string) :
  PyStr.startswith s p = true -> String.length p <= String.length s.
Proof.
  revert s. induction p as [|a p IH]; intros [|b s]; simpl; try done; [lia|].
  destruct (Ascii.eqb a b); [|done]. intros H%IH. lia.
Qed.

Lemma startswith_app_l (s t p : string) :
  PyStr.startswith s p = true -> PyStr.startswith (s +:+ t) p = true.
Proof.
  revert s. induction p as [|a p IH]; intros [|b s]; simpl; try done.
  - intros _. apply startswith_nil.
  - destruct (Ascii.eqb a b); [apply IH | done].
Qed.

(** The scan of [replace] over [a] followed by a final [".ipynb"]: what it
    does on [a], then the replacement. *)
Lemma replace_go_final (skip : nat) (a : string) :
  skip <= String.length a ->
  PyStr.replace_go ".ipynb" ".nbconvert.ipynb" skip (a +:+ ".ipynb")
  = PyStr.replace_go ".ipynb" ".nbconvert.ipynb" skip a +:+ ".nbconvert.ipynb".
Proof.
  revert skip. induction a as [|c t IH]; intros skip Hskip.
  - simpl in Hskip. by replace skip with 0 by lia.
  - change (String c t +:+ ".ipynb") with (String c (t +:+ ".ipynb")).
    destruct skip as [|k]; cbn [PyStr.replace_go].
    + destruct (PyStr.startswith (String c t) ".ipynb") eqn:Hs.
      * pose proof (startswith_length _ _ Hs) as Hlen. simpl in Hlen.
        change (String c (t +:+ ".ipynb")) with (String c t +:+ ".ipynb").
        rewrite (startswith_app_l _ _ _ Hs).
        rewrite IH by (simpl; lia). by rewrite str_app_assoc.
      * change (String c (t +:+ ".ipynb")) with (String c t +:+ ".ipynb").
        rewrite ipynb_starts_inside by auto.
        rewrite IH by lia. done.
    + apply IH. simpl in Hskip. lia.
Qed.

(** The scan of [replace] over a part [d] free of [".ipynb"] that a slash
    follows: the part is copied and the scan goes on after the slash. *)
Lemma replace_go_directory (d n : string) :
  PyStr.contains ".ipynb" d = false ->
  PyStr.replace_go ".ipynb" ".nbconvert.ipynb" 0 (d +:+ String "/" n)
  = d +:+ String "/" (PyStr.replace_go ".ipynb" ".nbconvert.ipynb" 0 n).
Proof.
  induction d as [|c t IH]; intros Hd.
  - done.
  - apply contains_cons in Hd as [Hs Ht].
    change (String c t +:+ String "/" n) with (String c (t +:+ String "/" n)).
    cbn [PyStr.replace_go].
    change (String c (t +:+ String "/" n)) with (String c t +:+ String "/" n).
    rewrite ipynb_starts_inside by eauto.
    rewrite IH by done. done.
Qed.

(** [replace] by a string that is no shorter never shortens. *)
Lemma replace_go_length (old new : string) (skip : nat) (s : string) :
  1 <= String.length old -> String.length old <= String.length new ->
  String.length s <= String.length (PyStr.replace_go old new skip s) + skip.
Proof.
  intros Hold Hnew. revert skip. induction s as [|c s IH]; intros skip.
  - simpl. lia.
  - destruct skip as [|k]; cbn [PyStr.replace_go].
    + destruct (PyStr.startswith (String c s) old).
      * rewrite str_app_length. specialize (IH (String.length old - 1)).
        simpl. lia.
      * specialize (IH 0). simpl. lia.
    + specialize (IH k). simpl. lia.
Qed.

Lemma nb_out_fn_app_ipynb (stem : string) :
  nb_out_fn (stem +:+ ".ipynb") = nb_out_fn stem +:+ ".nbconvert.ipynb".
Proof. unfold nb_out_fn, PyStr.replace. apply replace_go_final. lia. Qed.

Lemma nb_out_fn_ends (nb_in_fn : string) :
  PyStr.endswith nb_in_fn ".ipynb" = true ->
  PyStr.endswith (nb_out_fn nb_in_fn) ".nbconvert.ipynb" = true.
Proof.
  intros [stem ->]%endswith_spec. rewrite nb_out_fn_app_ipynb.
  apply endswith_spec. by eexists.
Qed.

Lemma nb_out_fn_longer (nb_in_fn : string) :
  PyStr.endswith nb_in_fn ".ipynb" = true ->
  String.length nb_in_fn < String.length (nb_out_fn nb_in_fn).
Proof.
  intros [stem ->]%endswith_spec. rewrite nb_out_fn_app_ipynb.
  rewrite !str_app_length.
  pose proof (replace_go_length ".ipynb" ".nbconvert.ipynb" 0 stem) as H.
  unfold nb_out_fn, PyStr.replace. simpl in *. lia.
Qed.

(** X7.  The output name of a path [stem.ipynb] is the output name of [stem]
    followed by [.nbconvert.ipynb]: the trailing [.ipynb] is always among the
    occurrences that [execute] replaces, whatever comes before it. *)
Theorem nb_out_fn_final_suffix (stem : string) :
  nb_out_fn (stem +:+ ".ipynb") = nb_out_fn stem +:+ ".nbconvert.ipynb"
  /\ String.length stem <= String.length (nb_out_fn stem).
Proof.
  split; [apply nb_out_fn_app_ipynb|].
  pose proof (replace_go_length ".ipynb" ".nbconvert.ipynb" 0 stem) as H.
  unfold nb_out_fn, PyStr.replace. simpl in *. lia.
Qed.

(** X9.  For an input path that ends in [.ipynb], the output path ends in
    [.nbconvert.ipynb], is longer than the input path and so is another
    path: [execute] does not write over such an input. *)
Theorem nb_out_fn_of_notebook (nb_in_fn : string) :
  PyStr.endswith nb_in_fn ".ipynb" = true ->
  PyStr.endswith (nb_out_fn nb_in_fn) ".nbconvert.ipynb" = true
  /\ String.length nb_in_fn < String.length (nb_out_fn nb_in_fn)
  /\ nb_out_fn nb_in_fn <> nb_in_fn.
Proof.
  intros Hend. pose proof (nb_out_fn_longer _ Hend) as Hlen.
  split; [by apply nb_out_fn_ends|]. split; [done|].
  intros Heq. rewrite Heq in Hlen. lia.
Qed.

(** X10.  When the directory part of the input path is free of [.ipynb], the
    output path lies in the same directory: it is the directory, the slash,
    and the output name of the rest. *)
Theorem nb_out_fn_same_directory (d n : string) :
  PyStr.contains ".ipynb" d = false ->
  nb_out_fn (d +:+ "/" +:+ n) = d +:+ "/" +:+ nb_out_fn n.
Proof. intros Hd. unfold nb_out_fn, PyStr.replace. by apply replace_go_directory. Qed.

End OutputName.

(** ** Further properties of [execute] and of the driver *)

Lemma endswith_app_l (a s suf : string) :
  PyStr.endswith s suf = true -> PyStr.endswith (a +:+ s) suf = true.
Proof.
  intros [p ->]%endswith_spec. apply endswith_spec.
  exists (a +:+ p). by rewrite str_app_assoc.
Qed.

(** Whatever [os.path.join] does with its first argument, the result ends
    with the second. *)
Lemma endswith_join (d n suf : string) :
  PyStr.endswith n suf = true -> PyStr.endswith (PosixPath.join d n) suf = true.
Proof.
  intros Hn. unfold PosixPath.join.
  destruct (PyStr.startswith n "/"); [done|].
  destruct (_ || _); [by apply endswith_app_l|].
  by apply endswith_app_l, endswith_app_l.
Qed.

Section MoreFacts.

Variable notebook : Type.
Variable nbformat_read : string -> Z -> string + notebook.
Variable nbformat_write : notebook -> string.
Variable preprocess :
  ExecutePreprocessor -> notebook -> resources -> FileSystem ->
  FileSystem * notebook * engine_outcome.

Abbreviation State := (State notebook).
Abbreviation execute := (execute notebook nbformat_read nbformat_write preprocess).
Abbreviation loop_body :=
  (loop_body notebook nbformat_read nbformat_write preprocess).
Abbreviation main := (main notebook nbformat_read nbformat_write preprocess).
Abbreviation calls_made :=
  (calls_made notebook nbformat_read nbformat_write preprocess).

(** What a call of [execute] adds to the output, against how it ends. *)
Lemma execute_stdout (nb_in_fn k rp : string) (s : State) :
  exists out,
    stdout (fst (execute nb_in_fn k rp s)) = stdout s ++ out
    /\ (out = [] \/ exists tb, out = error_block nb_in_fn tb)
    /\ (snd (execute nb_in_fn k rp s) = Returned true -> out = [])
    /\ (snd (execute nb_in_fn k rp s) = Returned false ->
        exists tb, out = error_block nb_in_fn tb).
Proof.
  destruct (files (fs s) !! nb_in_fn) as [text|] eqn:Hf.
  2: { rewrite execute_missing by done. exists []. cbn.
       rewrite app_nil_r. repeat split; auto; done. }
  destruct (nbformat_read text 4) as [name|doc] eqn:Hp.
  { erewrite execute_malformed by done. exists []. cbn.
    rewrite app_nil_r. repeat split; auto; done. }
  destruct (preprocess (mkEP 600 k) doc (mkResources rp) (fs s))
    as [[fs' doc'] o] eqn:He.
  erewrite execute_loaded by done. exists (printed nb_in_fn o).
  destruct (writable fs' _), o as [|tb|name];
    cbn [fst snd outcome_result stdout set_fs after_try printed];
    repeat split; try done; eauto.
Qed.

(** X5.  [execute] prints nothing but the two lines of a failed cell: a call
    that returns [True] leaves the output as it was, a call that returns
    [False] has added exactly the line naming its input and the traceback,
    and a call that raises has added either nothing or these two lines. *)
Theorem execute_prints_only_on_cell_failure (nb_in_fn k rp : string)
    (s : State) :
  (snd (execute nb_in_fn k rp s) = Returned true ->
   stdout (fst (execute nb_in_fn k rp s)) = stdout s)
  /\ (snd (execute nb_in_fn k rp s) = Returned false ->
      exists tb,
        stdout (fst (execute nb_in_fn k rp s))
        = stdout s ++ error_block nb_in_fn tb)
  /\ (stdout (fst (execute nb_in_fn k rp s)) = stdout s
      \/ exists tb,
           stdout (fst (execute nb_in_fn k rp s))
           = stdout s ++ error_block nb_in_fn tb).
Proof.
  destruct (execute_stdout nb_in_fn k rp s) as (out & -> & Hany & Htrue & Hfalse).
  split; [|split].
  - intros ->%Htrue. apply app_nil_r.
  - intros [tb ->]%Hfalse. eauto.
  - destruct Hany as [-> | [tb ->]]; [left; apply app_nil_r | eauto].
Qed.

Lemma for_each_stdout (k : string) (l : list string) (s : State) :
  exists tail,
    stdout (fst (for_each l (loop_body k) true s)) = stdout s ++ tail
    /\ (tail = []
        \/ exists nbfn tb, In nbfn l /\ tail = error_block nbfn tb)
    /\ (snd (for_each l (loop_body k) true s) = Returned true -> tail = []).
Proof.
  revert s. induction l as [|nbfn l IH]; intros s.
  - exists []. cbn. rewrite app_nil_r. auto.
  - rewrite for_each_cons, loop_body_true.
    destruct (execute_stdout nbfn k (nb_dir (cwd s) nbfn) s)
      as (out & Hexe & Hany & Htrue & Hfalse).
    pose proof (execute_result _ nbformat_read nbformat_write preprocess
                  nbfn k (nb_dir (cwd s) nbfn) s) as Hres.
    destruct (execute nbfn k (nb_dir (cwd s) nbfn) s) as [s1 r].
    cbn [fst snd] in *.
    destruct Hres as [[[|] ->] | [name ->]].
    + set (s2 := set_calls _ s1).
      destruct (IH s2) as (tail & Hout & Htail & Hok).
      exists tail. subst s2. cbn [stdout set_calls] in Hout.
      rewrite Hout, Hexe, Htrue, app_nil_r by done.
      split; [done|]. split; [|done].
      destruct Htail as [-> | (nb & tb & Hin & ->)]; [by left | right].
      exists nb, tb. split; [by right | done].
    + rewrite for_each_false. cbn [fst snd stdout set_calls].
      destruct (Hfalse eq_refl) as [tb ->].
      exists (error_block nbfn tb). split; [done|]. split; [|done].
      right. exists nbfn, tb. split; [by left | done].
    + cbn [fst snd stdout set_calls].
      destruct Hany as [-> | [tb ->]].
      * exists []. auto.
      * exists (error_block nbfn tb). split; [done|]. split; [|done].
        right. exists nbfn, tb. split; [by left | done].
Qed.

(** X4.  The output of the script is the line that lists the notebooks found,
    followed by at most one block of two lines for a failed cell (the loop
    calls nothing after a failure); a run that exits with status 0 prints
    the first line only. *)
Theorem main_prints_header_and_one_block (s : State) :
  exists tail,
    stdout (fst (main s)) = stdout s ++ header (discovered s) :: tail
    /\ (tail = []
        \/ exists nbfn tb,
             In nbfn (discovered s) /\ tail = error_block nbfn tb)
    /\ (exit_status (snd (main s)) = 0%Z -> tail = []).
Proof.
  rewrite main_eq. cbv zeta. cbn [fst snd]. set (s1 := set_stdout _ s).
  destruct (for_each_stdout "python3" (discovered s) s1)
    as (tail & Hout & Htail & Hok).
  destruct (for_each_trace _ nbformat_read nbformat_write preprocess
              "python3" (discovered s) s1) as (cs & _ & _ & Htr).
  exists tail. rewrite Hout. subst s1. cbn [stdout set_stdout].
  rewrite <- (assoc_L (++)). split; [done|]. split; [done|].
  intros Hexit. apply Hok.
  destruct (trace_result _ _ _ Htr) as [[[|] Hr] | [name Hr]];
    rewrite Hr in Hexit |- *; by simplify_eq/=.
Qed.

(** X2.  An exit status of 0 tells that every notebook found was executed,
    once and in the order of the list, and that each call returned [True]. *)
Theorem exit_zero_all_executed (s : State) :
  exit_status (snd (main s)) = 0%Z ->
  map call_nb_in_fn (calls_made s) = discovered s
  /\ Forall call_ok (calls_made s).
Proof.
  destruct (main_trace _ nbformat_read nbformat_write preprocess s)
    as (r & Htr & ->).
  intros Hexit.
  assert (r = Returned true) as ->.
  { destruct (trace_result _ _ _ Htr) as [[[|] ->] | [name ->]];
      by simplify_eq/=. }
  split; [by eapply trace_complete | by eapply trace_true_iff].
Qed.

(** X3.  When no notebook is found (an empty or unreadable current directory
    is one way), the script prints the line with the empty list, calls
    [execute] on nothing, leaves the file system as it is and exits with
    status 0. *)
Theorem no_notebook_exit_zero (s : State) :
  discovered s = [] ->
  main s = (set_stdout (fun out => out ++ [header []]) s, Raised (SystemExit 0))
  /\ calls_made s = []
  /\ exit_status (snd (main s)) = 0%Z.
Proof.
  intros Hnone.
  assert (main s = (set_stdout (fun out => out ++ [header []]) s,
                    Raised (SystemExit 0))) as Hmain.
  { rewrite main_eq. by rewrite Hnone. }
  split; [done|]. unfold RunNotebooks.calls_made. rewrite Hmain.
  cbn [fst snd calls set_stdout]. by rewrite drop_all.
Qed.

(** X6.  [execute] does not touch an input file whose path ends in [.ipynb]:
    if the engine has left the file as it was, it still holds the same text
    after the call, whether the output could be written or not. *)
Theorem execute_preserves_input (nb_in_fn k rp : string) (s : State)
    (text : string) (doc doc' : notebook) (fs' : FileSystem)
    (o : engine_outcome) :
  PyStr.endswith nb_in_fn ".ipynb" = true ->
  files (fs s) !! nb_in_fn = Some text ->
  nbformat_read text 4 = inr doc ->
  preprocess (mkEP 600 k) doc (mkResources rp) (fs s) = (fs', doc', o) ->
  files fs' !! nb_in_fn = Some text ->
  files (fs (fst (execute nb_in_fn k rp s))) !! nb_in_fn = Some text.
Proof.
  intros Hend Hf Hp He Hkept.
  rewrite (execute_loaded _ _ _ _ _ _ _ _ _ _ _ _ _ Hf Hp He).
  destruct (writable fs' _); cbn [fst fs set_fs after_try files set_file];
    [|done].
  rewrite lookup_insert_ne; [done|].
  pose proof (nb_out_fn_longer nb_in_fn Hend) as Hlen.
  intros Heq. rewrite Heq in Hlen. lia.
Qed.

(** X8.  Every notebook that the driver finds has a path that ends in
    [.ipynb]; the output path that [execute] computes for it ends in
    [.nbconvert.ipynb], differs from the path of the notebook, and is not a
    path that the driver would find, in whatever state of the file system:
    the script neither writes over a notebook it runs nor runs what it
    wrote. *)
Theorem discovered_outputs_are_no_inputs (s s' : State) (fn : string) :
  In fn (discovered s) ->
  PyStr.endswith fn ".ipynb" = true
  /\ PyStr.endswith (nb_out_fn fn) ".nbconvert.ipynb" = true
  /\ nb_out_fn fn <> fn
  /\ ~ In (nb_out_fn fn) (discovered s').
Proof.
  intros Hin.
  assert (PyStr.endswith fn ".ipynb" = true) as Hend.
  { unfold discovered in Hin. apply filter_In in Hin as [Hin _].
    apply glob_ipynb in Hin as (d & n & _ & _ & _ & _ & _ & _ & _ & _ & Hn & ->).
    by apply endswith_join. }
  pose proof (nb_out_fn_ends fn Hend) as Hout.
  split; [done|]. split; [done|]. split.
  - pose proof (nb_out_fn_longer fn Hend) as Hlen.
    intros Heq. rewrite Heq in Hlen. lia.
  - intros Hin'. unfold discovered in Hin'.
    apply filter_In in Hin' as [_ Hneg]. by rewrite Hout in Hneg.
Qed.

(** X13.  The output file is the only file that [execute] itself writes: at
    every other path the files are as the engine left them. *)
Theorem execute_writes_only_output (nb_in_fn k rp : string) (s : State)
    (text : string) (doc doc' : notebook) (fs' : FileSystem)
    (o : engine_outcome) (path : string) :
  files (fs s) !! nb_in_fn = Some text ->
  nbformat_read text 4 = inr doc ->
  preprocess (mkEP 600 k) doc (mkResources rp) (fs s) = (fs', doc', o) ->
  path <> nb_out_fn nb_in_fn ->
  files (fs (fst (execute nb_in_fn k rp s))) !! path = files fs' !! path.
Proof.
  intros Hf Hp He Hne.
  rewrite (execute_loaded _ _ _ _ _ _ _ _ _ _ _ _ _ Hf Hp He).
  destruct (writable fs' _); cbn [fst fs set_fs after_try files set_file];
    [|done].
  by rewrite lookup_insert_ne.
Qed.

(** X14.  A call of [execute] that returns, with [True] or with [False], has
    written its output file: the file holds the document as the engine left
    it, which is the last object on the heap. *)
Theorem execute_returned_has_written (nb_in_fn k rp : string) (s : State)
    (b : bool) :
  snd (execute nb_in_fn k rp s) = Returned b ->
  exists doc',
    last (heap (fst (execute nb_in_fn k rp s))) = Some doc'
    /\ files (fs (fst (execute nb_in_fn k rp s))) !! nb_out_fn nb_in_fn
       = Some (nbformat_write doc').
Proof.
  destruct (files (fs s) !! nb_in_fn) as [text|] eqn:Hf;
    [|by rewrite execute_missing].
  destruct (nbformat_read text 4) as [name|doc] eqn:Hp;
    [by erewrite execute_malformed|].
  destruct (preprocess (mkEP 600 k) doc (mkResources rp) (fs s))
    as [[fs' doc'] o] eqn:He.
  erewrite execute_loaded by done.
  destruct (writable fs' _); [|done]. cbn [fst snd]. intros _.
  exists doc'. cbn [heap fs set_fs after_try files set_file].
  split; [apply last_snoc | apply lookup_insert_eq].
Qed.

End MoreFacts.

(** ** What the script asks of the parser and of the engine *)

Section FixedSettings.

Variable notebook : Type.
Variables nbformat_read nbformat_read' : string -> Z -> string + notebook.
Variable nbformat_write : notebook -> string.
Variables preprocess preprocess' :
  ExecutePreprocessor -> notebook -> resources -> FileSystem ->
  FileSystem * notebook * engine_outcome.

Lemma for_each_ext {A B} (l : list A) (body body' : B -> A -> M notebook B) :
  (forall acc x s, body acc x s = body' acc x s) ->
  forall acc s, for_each l body acc s = for_each l body' acc s.
Proof.
  intros Hbody. induction l as [|x l IH]; intros acc s; [done|].
  rewrite !for_each_cons, Hbody.
  destruct (body' acc x s) as [s1 [a|e]]; [apply IH | done].
Qed.

(** X11.  The script reads documents as format version 4 only and runs the
    engine with a timeout of 600 only: two parsers that agree on version 4
    and two engines that agree for this timeout give the same run of
    [execute], on every input, and the same run of [main]. *)
Theorem script_uses_fixed_settings :
  (forall text, nbformat_read text 4 = nbformat_read' text 4) ->
  (forall k doc res fsys,
     preprocess (mkEP 600 k) doc res fsys
     = preprocess' (mkEP 600 k) doc res fsys) ->
  (forall nb_in_fn k rp s,
     execute notebook nbformat_read nbformat_write preprocess nb_in_fn k rp s
     = execute notebook nbformat_read' nbformat_write preprocess'
         nb_in_fn k rp s)
  /\ (forall s,
        main notebook nbformat_read nbformat_write preprocess s
        = main notebook nbformat_read' nbformat_write preprocess' s).
Proof.
  intros Hread Hpre.
  assert (forall nb_in_fn k rp s,
            execute notebook nbformat_read nbformat_write preprocess
              nb_in_fn k rp s
            = execute notebook nbformat_read' nbformat_write preprocess'
                nb_in_fn k rp s) as Hexe.
  { intros nb_in_fn k rp s.
    destruct (files (fs s) !! nb_in_fn) as [text|] eqn:Hf;
      [|by rewrite !execute_missing].
    destruct (nbformat_read text 4) as [name|doc] eqn:Hp.
    - rewrite (execute_malformed _ nbformat_read _ _ _ _ _ _ _ _ Hf Hp).
      rewrite Hread in Hp.
      by rewrite (execute_malformed _ nbformat_read' _ _ _ _ _ _ _ _ Hf Hp).
    - destruct (preprocess (mkEP 600 k) doc (mkResources rp) (fs s))
        as [[fs' doc'] o] eqn:He.
      rewrite (execute_loaded _ nbformat_read _ preprocess
                 _ _ _ _ _ _ _ _ _ Hf Hp He).
      rewrite Hread in Hp. rewrite Hpre in He.
      by rewrite (execute_loaded _ nbformat_read' _ preprocess'
                    _ _ _ _ _ _ _ _ _ Hf Hp He). }
  split; [done|]. intros s. rewrite !main_eq. cbv zeta.
  rewrite (for_each_ext _ _
             (loop_body notebook nbformat_read' nbformat_write preprocess'
                "python3")); [done|].
  intros [|] nbfn s'; [|done]. by rewrite !loop_body_true, Hexe.
Qed.

End FixedSettings.

(** ** The further properties on the small instance *)

Lemma replace_single_suffix_witness :
  PyStr.contains ".ipynb" "b/good" = false
  /\ PyStr.replace ("b/good" +:+ ".ipynb") ".ipynb" ".nbconvert.ipynb"
     = "b/good" +:+ ".nbconvert.ipynb".
Proof.
  assert (PyStr.contains ".ipynb" "b/good" = false) as H by reflexivity.
  exact (conj H (replace_single_suffix "b/good" H)).
Defined.

Lemma nb_out_fn_of_notebook_witness :
  PyStr.endswith "x.ipynb/n.ipynb" ".ipynb" = true
  /\ PyStr.endswith (nb_out_fn "x.ipynb/n.ipynb") ".nbconvert.ipynb" = true
  /\ String.length "x.ipynb/n.ipynb" < String.length (nb_out_fn "x.ipynb/n.ipynb")
  /\ nb_out_fn "x.ipynb/n.ipynb" <> "x.ipynb/n.ipynb".
Proof.
  assert (PyStr.endswith "x.ipynb/n.ipynb" ".ipynb" = true) as H
    by reflexivity.
  exact (conj H (nb_out_fn_of_notebook "x.ipynb/n.ipynb" H)).
Defined.

Lemma nb_out_fn_same_directory_witness :
  PyStr.contains ".ipynb" "b" = false
  /\ nb_out_fn ("b" +:+ "/" +:+ "good.ipynb") = "b" +:+ "/" +:+ nb_out_fn "good.ipynb"
  /\ nb_out_fn "good.ipynb" = "good.nbconvert.ipynb".
Proof.
  assert (PyStr.contains ".ipynb" "b" = false) as H by reflexivity.
  exact (conj H (conj (nb_out_fn_same_directory "b" "good.ipynb" H) eq_refl)).
Defined.

Lemma exit_zero_all_executed_witness :
  exit_status (snd (Demo.main Demo.start_ok)) = 0%Z
  /\ map call_nb_in_fn (Demo.calls_made Demo.start_ok) = discovered Demo.start_ok
  /\ Forall call_ok (Demo.calls_made Demo.start_ok)
  /\ discovered Demo.start_ok = ["b/good.ipynb"].
Proof.
  assert (exit_status (snd (Demo.main Demo.start_ok)) = 0%Z) as H
    by (vm_compute; reflexivity).
  destruct (exit_zero_all_executed Demo.doc Demo.parse Demo.serialize
              Demo.engine Demo.start_ok H) as [Hall Hok].
  exact (conj H (conj Hall (conj Hok eq_refl))).
Defined.

Lemma no_notebook_exit_zero_witness :
  discovered Demo.start_bare = []
  /\ Demo.main Demo.start_bare
     = (set_stdout (fun out => out ++ [header []]) Demo.start_bare,
        Raised (SystemExit 0))
  /\ Demo.calls_made Demo.start_bare = []
  /\ exit_status (snd (Demo.main Demo.start_bare)) = 0%Z.
Proof.
  assert (discovered Demo.start_bare = []) as H by reflexivity.
  exact (conj H (no_notebook_exit_zero Demo.doc Demo.parse Demo.serialize
                   Demo.engine Demo.start_bare H)).
Defined.

Lemma execute_preserves_input_witness :
  PyStr.endswith "b/good.ipynb" ".ipynb" = true
  /\ files (fs Demo.start) !! "b/good.ipynb" = Some "print(1)"
  /\ Demo.parse "print(1)" 4 = inr ("print(1)", 0)
  /\ Demo.engine (mkEP 600 "python3") ("print(1)", 0)
       (mkResources "/home/u/nbs/b") (fs Demo.start)
     = (set_file "/home/u/nbs/b/side.txt" "python3" Demo.disk,
        ("print(1)", 2), CellsDone)
  /\ files (set_file "/home/u/nbs/b/side.txt" "python3" Demo.disk)
       !! "b/good.ipynb" = Some "print(1)"
  /\ files (fs (fst (Demo.execute "b/good.ipynb" "python3" "/home/u/nbs/b"
                       Demo.start))) !! "b/good.ipynb" = Some "print(1)".
Proof.
  assert (PyStr.endswith "b/good.ipynb" ".ipynb" = true) as H0 by reflexivity.
  assert (files (fs Demo.start) !! "b/good.ipynb" = Some "print(1)") as H1
    by reflexivity.
  assert (Demo.parse "print(1)" 4 = inr ("print(1)", 0)) as H2 by reflexivity.
  assert (Demo.engine (mkEP 600 "python3") ("print(1)", 0)
            (mkResources "/home/u/nbs/b") (fs Demo.start)
          = (set_file "/home/u/nbs/b/side.txt" "python3" Demo.disk,
             ("print(1)", 2), CellsDone)) as H3 by reflexivity.
  assert (files (set_file "/home/u/nbs/b/side.txt" "python3" Demo.disk)
            !! "b/good.ipynb" = Some "print(1)") as H4 by reflexivity.
  exact (conj H0 (conj H1 (conj H2 (conj H3 (conj H4
           (execute_preserves_input Demo.doc Demo.parse Demo.serialize
              Demo.engine "b/good.ipynb" "python3" "/home/u/nbs/b" Demo.start
              _ _ _ _ _ H0 H1 H2 H3 H4)))))).
Defined.

Lemma discovered_outputs_are_no_inputs_witness :
  In "a/bad.ipynb" (discovered Demo.start)
  /\ PyStr.endswith "a/bad.ipynb" ".ipynb" = true
  /\ PyStr.endswith (nb_out_fn "a/bad.ipynb") ".nbconvert.ipynb" = true
  /\ nb_out_fn "a/bad.ipynb" <> "a/bad.ipynb"
  /\ ~ In (nb_out_fn "a/bad.ipynb") (discovered Demo.start_ok).
Proof.
  assert (In "a/bad.ipynb" (discovered Demo.start)) as H by (simpl; auto).
  exact (conj H (discovered_outputs_are_no_inputs Demo.doc Demo.start
                   Demo.start_ok "a/bad.ipynb" H)).
Defined.

Lemma script_uses_fixed_settings_witness :
  (forall text, Demo.parse text 4 = Demo.parse' text 4)
  /\ (forall k doc res fsys,
        Demo.engine (mkEP 600 k) doc res fsys
        = Demo.engine' (mkEP 600 k) doc res fsys)
  /\ (forall nb_in_fn k rp s,
        execute Demo.doc Demo.parse Demo.serialize Demo.engine nb_in_fn k rp s
        = execute Demo.doc Demo.parse' Demo.serialize Demo.engine'
            nb_in_fn k rp s)
  /\ (forall s,
        main Demo.doc Demo.parse Demo.serialize Demo.engine s
        = main Demo.doc Demo.parse' Demo.serialize Demo.engine' s).
Proof.
  assert (forall text, Demo.parse text 4 = Demo.parse' text 4) as H1
    by reflexivity.
  assert (forall k doc res fsys,
            Demo.engine (mkEP 600 k) doc res fsys
            = Demo.engine' (mkEP 600 k) doc res fsys) as H2 by reflexivity.
  exact (conj H1 (conj H2
           (script_uses_fixed_settings Demo.doc Demo.parse Demo.parse'
              Demo.serialize Demo.engine Demo.engine' H1 H2))).
Defined.

Lemma execute_writes_only_output_witness :
  files (fs Demo.start) !! "a/bad.ipynb" = Some "print(1/0)"
  /\ Demo.parse "print(1/0)" 4 = inr ("print(1/0)", 0)
  /\ Demo.engine (mkEP 600 "python3") ("print(1/0)", 0)
       (mkResources "/home/u/nbs/a") (fs Demo.start)
     = (Demo.disk, ("print(1/0)", 1), CellFailed "ZeroDivisionError")
  /\ "a/old.nbconvert.ipynb" <> nb_out_fn "a/bad.ipynb"
  /\ files (fs (fst (Demo.execute "a/bad.ipynb" "python3" "/home/u/nbs/a"
                       Demo.start))) !! "a/old.nbconvert.ipynb"
     = files Demo.disk !! "a/old.nbconvert.ipynb".
Proof.
  assert (files (fs Demo.start) !! "a/bad.ipynb" = Some "print(1/0)") as H1
    by reflexivity.
  assert (Demo.parse "print(1/0)" 4 = inr ("print(1/0)", 0)) as H2
    by reflexivity.
  assert (Demo.engine (mkEP 600 "python3") ("print(1/0)", 0)
            (mkResources "/home/u/nbs/a") (fs Demo.start)
          = (Demo.disk, ("print(1/0)", 1), CellFailed "ZeroDivisionError"))
    as H3 by reflexivity.
  assert ("a/old.nbconvert.ipynb" <> nb_out_fn "a/bad.ipynb") as H4
    by discriminate.
  exact (conj H1 (conj H2 (conj H3 (conj H4
           (execute_writes_only_output Demo.doc Demo.parse Demo.serialize
              Demo.engine "a/bad.ipynb" "python3" "/home/u/nbs/a" Demo.start
              _ _ _ _ _ _ H1 H2 H3 H4))))).
Defined.

Lemma execute_returned_has_written_witness :
  snd (Demo.execute "a/bad.ipynb" "python3" "/home/u/nbs/a" Demo.start)
  = Returned false
  /\ exists doc',
       last (heap (fst (Demo.execute "a/bad.ipynb" "python3" "/home/u/nbs/a"
                          Demo.start))) = Some doc'
       /\ files (fs (fst (Demo.execute "a/bad.ipynb" "python3"
                            "/home/u/nbs/a" Demo.start)))
            !! nb_out_fn "a/bad.ipynb"
          = Some (Demo.serialize doc').
Proof.
  assert (snd (Demo.execute "a/bad.ipynb" "python3" "/home/u/nbs/a" Demo.start)
          = Returned false) as H by (vm_compute; reflexivity).
  exact (conj H (execute_returned_has_written Demo.doc Demo.parse
                   Demo.serialize Demo.engine "a/bad.ipynb" "python3"
                   "/home/u/nbs/a" Demo.start false H)).
Defined.
